(** * The local signer of CFSSL ([signer/local/local.go])

    A shallow embedding of the signing engine: the subject reconciler
    ([whitelistRequest], [PopulateSubjectFromCSR]), the host classifier
    ([OverrideHosts]), the engine's constructor and accessors
    ([NewSigner], [SetPolicy], [Policy], [SigAlgo], [Certificate]) and the
    two signing operations ([sign], [Sign]).

    Go pointers to certificates are addresses into an explicit heap, so that
    the aliasing introduced by [s.ca = template] is visible; a nil
    dereference is the outcome [Panic].  The collaborators that live outside
    the file (the template filler, the CSR parser, the signature primitive,
    PEM coding, the IP parser, the policy validity predicate) are the
    fields of a type class. *)

From Stdlib Require Import ZArith Ascii String.
From Stdlib.Init Require Import Byte.
From stdpp Require Import base option list strings gmap.

Set Implicit Arguments.
Local Open Scope string_scope.

(** ** Go slices

    A slice is either [nil] or a (possibly empty) sequence; [len] does not
    tell them apart, a comparison with [nil] does. *)

Inductive slice (A : Type) : Type :=
| nil_slice : slice A
| mk_slice (l : list A) : slice A.
Arguments nil_slice {A}.

Definition elems {A} (s : slice A) : list A :=
  match s with
  | nil_slice => []
  | mk_slice l => l
  end.

Definition len {A} (s : slice A) : nat := length (elems s).

Definition is_nil {A} (s : slice A) : bool :=
  match s with
  | nil_slice => true
  | mk_slice _ => false
  end.

(** [append(s, x)]: the result is never nil. *)
Definition append {A} (s : slice A) (x : A) : slice A :=
  mk_slice (elems s ++ [x]).

(** ** Identities ([pkix.Name]) *)

Record Name : Type := mkName {
  CommonName : string;
  Country : slice string;
  Province : slice string;
  Locality : slice string;
  Organization : slice string;
  OrganizationalUnit : slice string;
  StreetAddress : slice string;
  PostalCode : slice string;
  NameSerialNumber : string
}.

Definition set_CommonName (v : string) (n : Name) : Name :=
  mkName v (Country n) (Province n) (Locality n) (Organization n)
         (OrganizationalUnit n) (StreetAddress n) (PostalCode n)
         (NameSerialNumber n).
Definition set_Country (v : slice string) (n : Name) : Name :=
  mkName (CommonName n) v (Province n) (Locality n) (Organization n)
         (OrganizationalUnit n) (StreetAddress n) (PostalCode n)
         (NameSerialNumber n).
Definition set_Province (v : slice string) (n : Name) : Name :=
  mkName (CommonName n) (Country n) v (Locality n) (Organization n)
         (OrganizationalUnit n) (StreetAddress n) (PostalCode n)
         (NameSerialNumber n).
Definition set_Locality (v : slice string) (n : Name) : Name :=
  mkName (CommonName n) (Country n) (Province n) v (Organization n)
         (OrganizationalUnit n) (StreetAddress n) (PostalCode n)
         (NameSerialNumber n).
Definition set_Organization (v : slice string) (n : Name) : Name :=
  mkName (CommonName n) (Country n) (Province n) (Locality n) v
         (OrganizationalUnit n) (StreetAddress n) (PostalCode n)
         (NameSerialNumber n).
Definition set_OrganizationalUnit (v : slice string) (n : Name) : Name :=
  mkName (CommonName n) (Country n) (Province n) (Locality n)
         (Organization n) v (StreetAddress n) (PostalCode n)
         (NameSerialNumber n).

(** ** Subject overrides ([signer.Subject]) *)

(** Modelled from the spec: the whitelist of [signer.Subject], declared in
    the [signer] package, outside this file.  One flag per identity field,
    read here as [s.Whitelist.CN], [.C], [.ST], [.L], [.O], [.OU]. *)
Record Whitelist : Type := mkWhitelist {
  wl_CN : bool;
  wl_C : bool;
  wl_ST : bool;
  wl_L : bool;
  wl_O : bool;
  wl_OU : bool
}.

(** Modelled from the spec: [signer.Subject], declared outside this file: an
    optional whitelist ([s.Whitelist], a pointer) and an ordered list of
    override identities ([s.Names]). *)
Record Subject : Type := mkSubject {
  SubjectWhitelist : option Whitelist;
  Names : slice Name
}.

Definition zeroName : Name :=
  mkName "" nil_slice nil_slice nil_slice nil_slice nil_slice
         nil_slice nil_slice "".

(** Modelled from the spec: [Subject.Name()] of the [signer] package, which
    is not part of this file.  The spec describes the override as an ordered
    list of identities of which only the first is consulted, and the merge
    as taking "the first override identity". *)
Definition Subject_Name (s : Subject) : Name :=
  match elems (Names s) with
  | n :: _ => n
  | [] => zeroName
  end.

(** ** Subject reconciler *)

Definition replaceSliceIfEmpty (replaced newContents : slice string)
  : slice string :=
  if Nat.eqb (len replaced) 0 then newContents else replaced.

Definition whitelistString (keep : bool) (field : string) : string :=
  if negb keep then "" else field.

Definition whitelistStringSlice (keep : bool) (field : slice string)
  : slice string :=
  if negb keep then mk_slice [] else field.

Definition whitelistRequest (s : option Subject) (name : Name) : Name :=
  match s with
  | None => name
  | Some s' =>
    match SubjectWhitelist s' with
    | None => name
    | Some w =>
      let name :=
        set_CommonName (whitelistString (wl_CN w) (CommonName name)) name in
      let name :=
        set_Country (whitelistStringSlice (wl_C w) (Country name)) name in
      let name :=
        set_Province (whitelistStringSlice (wl_ST w) (Province name)) name in
      let name :=
        set_Locality (whitelistStringSlice (wl_L w) (Locality name)) name in
      let name :=
        set_Organization
          (whitelistStringSlice (wl_O w) (Organization name)) name in
      let name :=
        set_OrganizationalUnit
          (whitelistStringSlice (wl_OU w) (OrganizationalUnit name)) name in
      name
    end
  end.

Definition PopulateSubjectFromCSR (s : option Subject) (req : Name) : Name :=
  match s with
  | None => req
  | Some s' =>
    let req := whitelistRequest s req in
    if Nat.eqb (len (Names s')) 0 then req
    else
      let name := Subject_Name s' in
      let name :=
        if String.eqb (CommonName name) ""
        then set_CommonName (CommonName req) name
        else name in
      let name :=
        set_Country (replaceSliceIfEmpty (Country name) (Country req)) name in
      let name :=
        set_Province
          (replaceSliceIfEmpty (Province name) (Province req)) name in
      let name :=
        set_Locality
          (replaceSliceIfEmpty (Locality name) (Locality req)) name in
      let name :=
        set_Organization
          (replaceSliceIfEmpty (Organization name) (Organization req)) name in
      let name :=
        set_OrganizationalUnit
          (replaceSliceIfEmpty (OrganizationalUnit name) (OrganizationalUnit req)) name in
      name
  end.

(** ** Data the engine handles but never inspects *)

Class Opaque : Type := {
  IP : Type;                    (* net.IP *)
  PublicKey : Type;             (* the template's PublicKey, an interface{} *)
  PrivateKey : Type;            (* crypto.Signer *)
  SignatureAlgorithm : Type;    (* x509.SignatureAlgorithm *)
  ProfileAttrs : Type;          (* what a profile holds besides UseSerialSeq *)
  CertAttrs : Type;             (* validity window, usages, extensions, ... *)
  ForeignError : Type           (* error values made by a collaborator *)
}.

(** ** Errors ([cferr]) *)

(** Modelled from the spec: the error categories of the [errors] package,
    which is outside this file. *)
Inductive Category : Type :=
| CertificateError | PrivateKeyError | PolicyError.

(** Modelled from the spec: the reasons of the error taxonomy. *)
Inductive Reason : Type :=
| Unknown | ReadFailed | DecodeFailed | ParseFailed | BadRequest
| InvalidPolicy | InvalidRequest.

(** Modelled from the spec: an error of the [errors] package is a category
    and a reason, made afresh ([cferr.New]) or wrapping another error
    ([cferr.Wrap]); the other errors are Go's [errors.New] and the values
    collaborators return. *)
Inductive error {O : Opaque} : Type :=
| cferr_New (c : Category) (r : Reason)
| cferr_Wrap (c : Category) (r : Reason) (err : error)
| errors_New (msg : string)
| foreign (e : ForeignError).

(** The category and reason an error was made with, if it is [cferr]'s. *)
Definition kind {O : Opaque} (e : error) : option (Category * Reason) :=
  match e with
  | cferr_New c r | cferr_Wrap c r _ => Some (c, r)
  | _ => None
  end.

(** A pointer to a certificate is an address of the heap. *)
Abbreviation ptr := nat (only parsing).

Section Model.
Context {O : Opaque}.

(** ** Certificates ([x509.Certificate]) and PEM blocks *)

Record Certificate : Type := mkCertificate {
  CertSubject : Name;
  DNSNames : slice string;
  IPAddresses : slice IP;
  SerialNumber : option Z;
  IsCA : bool;
  MaxPathLen : Z;
  CertPublicKey : PublicKey;
  Attrs : CertAttrs
}.

Definition set_Subject (v : Name) (c : Certificate) : Certificate :=
  mkCertificate v (DNSNames c) (IPAddresses c) (SerialNumber c) (IsCA c)
                (MaxPathLen c) (CertPublicKey c) (Attrs c).
Definition set_DNSNames (v : slice string) (c : Certificate) : Certificate :=
  mkCertificate (CertSubject c) v (IPAddresses c) (SerialNumber c) (IsCA c)
                (MaxPathLen c) (CertPublicKey c) (Attrs c).
Definition set_IPAddresses (v : slice IP) (c : Certificate) : Certificate :=
  mkCertificate (CertSubject c) (DNSNames c) v (SerialNumber c) (IsCA c)
                (MaxPathLen c) (CertPublicKey c) (Attrs c).
Definition set_MaxPathLen (v : Z) (c : Certificate) : Certificate :=
  mkCertificate (CertSubject c) (DNSNames c) (IPAddresses c) (SerialNumber c)
                (IsCA c) v (CertPublicKey c) (Attrs c).

Record Block : Type := mkBlock {
  BlockType : string;
  BlockBytes : slice byte
}.

(** ** Policies ([config.Signing]) and requests ([signer.SignRequest]) *)

(** Modelled from the spec: [config.SigningProfile], declared outside this
    file; the file reads [UseSerialSeq] and hands the rest on. *)
Record SigningProfile : Type := mkSigningProfile {
  UseSerialSeq : bool;
  OtherAttrs : ProfileAttrs
}.

(** Modelled from the spec: [config.Signing], declared outside this file: a
    map from profile names to profiles and a default profile.  [Profiles]
    is a map to pointers, so looking up a missing name gives nil, and
    [Default] is a pointer that may be nil. *)
Record Signing : Type := mkSigning {
  Profiles : gmap string SigningProfile;
  Default : option SigningProfile
}.

(** Modelled from the spec: [signer.SignRequest], declared outside this
    file, with the five fields [Sign] reads. *)
Record SignRequest : Type := mkSignRequest {
  Hosts : slice string;
  Request : string;
  ReqSubject : option Subject;
  Profile : string;
  SerialSeq : string
}.

(** ** The engine ([Signer]) *)

Record Signer : Type := mkSigner {
  ca : option ptr;
  priv : PrivateKey;
  policy : option Signing;
  sigAlgo : SignatureAlgorithm
}.

Definition set_ca (v : option ptr) (s : Signer) : Signer :=
  mkSigner v (priv s) (policy s) (sigAlgo s).
Definition set_policy (v : option Signing) (s : Signer) : Signer :=
  mkSigner (ca s) (priv s) v (sigAlgo s).

(** ** Collaborators *)

Class Collaborators : Type := {
  (* signer.MaxPathLen *)
  signer_MaxPathLen : Z;
  (* config.DefaultConfig() *)
  config_DefaultConfig : option SigningProfile;
  (* the Valid method of config.Signing *)
  Signing_Valid : Signing -> bool;
  (* signer.FillTemplate(template, defaultProfile, profile, serialSeq):
     the template as it leaves, and the error *)
  signer_FillTemplate :
    Certificate -> option SigningProfile -> option SigningProfile -> string ->
    Certificate * option error;
  (* signer.ParseCertificateRequest(s, csrBytes) *)
  signer_ParseCertificateRequest : Signer -> slice byte -> Certificate + error;
  (* x509.CreateCertificate(rand.Reader, template, parent, pub, priv) *)
  x509_CreateCertificate :
    Certificate -> Certificate -> PublicKey -> PrivateKey -> slice byte + error;
  (* x509.ParseCertificate(der): both results, as Go returns them *)
  x509_ParseCertificate : slice byte -> option Certificate * option error;
  (* pem.Decode(data), without the rest of the input *)
  pem_Decode : slice byte -> option Block;
  (* pem.EncodeToMemory(block) *)
  pem_EncodeToMemory : Block -> slice byte;
  (* net.ParseIP(s) *)
  net_ParseIP : string -> option IP
}.

Context {C : Collaborators}.

(** ** Host classifier

    The loop [for i := range hosts] is a left fold over the elements. *)

Definition OverrideHosts_step (template : Certificate) (host : string)
  : Certificate :=
  match net_ParseIP host with
  | Some ip => set_IPAddresses (append (IPAddresses template) ip) template
  | None => set_DNSNames (append (DNSNames template) host) template
  end.

Definition OverrideHosts (template : Certificate) (hosts : slice string)
  : Certificate :=
  let template :=
    if negb (is_nil hosts)
    then set_DNSNames (mk_slice []) (set_IPAddresses (mk_slice []) template)
    else template in
  fold_left OverrideHosts_step (elems hosts) template.

(** ** Construction *)

Definition NewSigner (priv : PrivateKey) (cert : option ptr)
    (sigAlgo : SignatureAlgorithm) (policy : option Signing)
  : option Signer * option error :=
  let policy :=
    match policy with
    | None => mkSigning ∅ config_DefaultConfig
    | Some p => p
    end in
  if negb (Signing_Valid policy)
  then (None, Some (cferr_New PolicyError InvalidPolicy))
  else (Some (mkSigner cert priv (Some policy) sigAlgo), None).

(** ** State: the engine, the heap of certificates, the log

    [template] and [s.ca] are pointers; two of them may name the same
    certificate, so certificates live in a heap and a pointer is an address.
    [new] takes the next free address. *)

Record World : Type := mkWorld {
  engine : Signer;
  heap : list Certificate;
  infolog : list (option Z)    (* serial numbers given to log.Infof *)
}.

Inductive outcome (A : Type) : Type :=
| Ret (a : A) (w : World)
| Panic.
Arguments Panic {A}.

Definition M (A : Type) : Type := World -> outcome A.

Definition ret {A} (a : A) : M A := fun w => Ret a w.

Definition bind {A B} (m : M A) (k : A -> M B) : M B :=
  fun w =>
    match m w with
    | Ret a w' => k a w'
    | Panic => Panic
    end.

Definition panic {A} : M A := fun _ => Panic.

Definition get_engine : M Signer := fun w => Ret (engine w) w.

Definition put_engine (s : Signer) : M unit :=
  fun w => Ret tt (mkWorld s (heap w) (infolog w)).

(** [*p] for a pointer that may be nil *)
Definition deref {A} (p : option A) : M A :=
  match p with
  | Some a => ret a
  | None => panic
  end.

Definition load (p : ptr) : M Certificate :=
  fun w => deref (heap w !! p) w.

Definition store (p : ptr) (c : Certificate) : M unit :=
  fun w =>
    match heap w !! p with
    | Some _ => Ret tt (mkWorld (engine w) (<[p:=c]> (heap w)) (infolog w))
    | None => Panic
    end.

Definition new (c : Certificate) : M ptr :=
  fun w =>
    Ret (length (heap w)) (mkWorld (engine w) (heap w ++ [c]) (infolog w)).

Definition log_Infof (serialNumber : option Z) : M unit :=
  fun w => Ret tt (mkWorld (engine w) (heap w) (infolog w ++ [serialNumber])).

End Model.

Arguments Panic {O A}.

Declare Scope go_scope.
Delimit Scope go_scope with go.
Notation "'let*' x ':=' c 'in' k" := (bind c (fun x => k))
  (at level 10, x name, c at level 100, k at level 200) : go_scope.
Notation "c ';;' k" := (bind c (fun _ => k))
  (at level 100, k at level 200, right associativity) : go_scope.

Section Engine.
Context {O : Opaque} {C : Collaborators}.
Local Open Scope go_scope.

(** [p.f = v] through a pointer *)
Definition assign (p : ptr) (f : Certificate -> Certificate) : M unit :=
  let* c := load p in store p (f c).

(** ** [sign]

    [rest] is the part of the body after the hierarchy decision, which
    both of its non-failing branches reach. *)

Definition sign (template : ptr) (profile : option SigningProfile)
    (serialSeq : string) : M (slice byte * option error) :=
  let* s := get_engine in
  let* pol := deref (policy s) in
  let* t := load template in
  let (t', err) := signer_FillTemplate t (Default pol) profile serialSeq in
  store template t';;
  match err with
  | Some e => ret (nil_slice, Some e)
  | None =>
    let* t := load template in
    let serialNumber := SerialNumber t in
    let rest (initRoot : bool) : M (slice byte * option error) :=
      let* s := get_engine in
      let* t := load template in
      let* issuer := deref (ca s) in
      let* parent := load issuer in
      match x509_CreateCertificate t parent (CertPublicKey t) (priv s) with
      | inr e => ret (nil_slice, Some (cferr_Wrap CertificateError Unknown e))
      | inl derBytes =>
        let encode : M (slice byte * option error) :=
          let cert := pem_EncodeToMemory (mkBlock "CERTIFICATE" derBytes) in
          log_Infof serialNumber;;
          ret (cert, None) in
        if initRoot then
          let (parsed, perr) := x509_ParseCertificate derBytes in
          let* p := match parsed with
                    | Some c => let* a := new c in ret (Some a)
                    | None => ret None
                    end in
          let* s := get_engine in
          put_engine (set_ca p s);;
          match perr with
          | Some e =>
            ret (nil_slice, Some (cferr_Wrap CertificateError ParseFailed e))
          | None => encode
          end
        else encode
      end in
    let* s := get_engine in
    match ca s with
    | None =>
      if negb (IsCA t)
      then ret (nil_slice, Some (cferr_New PolicyError InvalidRequest))
      else
        assign template (set_DNSNames nil_slice);;
        put_engine (set_ca (Some template) s);;
        assign template (set_MaxPathLen signer_MaxPathLen);;
        rest true
    | Some _ =>
      (if IsCA t
       then assign template (set_MaxPathLen 1);;
            assign template (set_DNSNames nil_slice)
       else ret tt);;
      rest false
    end
  end.

End Engine.

Section Methods.
Context {O : Opaque} {C : Collaborators}.
Local Open Scope go_scope.

(** ** [Sign] *)

Definition Sign (req : SignRequest) : M (slice byte * option error) :=
  let* s := get_engine in
  let* pol := deref (policy s) in
  let profile := Profiles pol !! Profile req in
  let profile :=
    match profile with
    | None => Default pol
    | Some _ => profile
    end in
  let* prof := deref profile in
  let serialSeq := if UseSerialSeq prof then SerialSeq req else "" in
  match pem_Decode (mk_slice (list_byte_of_string (Request req))) with
  | None => ret (nil_slice, Some (cferr_New CertificateError DecodeFailed))
  | Some block =>
    if negb (String.eqb (BlockType block) "CERTIFICATE REQUEST")
    then ret (nil_slice,
              Some (cferr_Wrap CertificateError BadRequest
                               (errors_New "not a certificate or csr")))
    else
      match signer_ParseCertificateRequest s (BlockBytes block) with
      | inr err => ret (nil_slice, Some err)
      | inl parsed =>
        let* template := new parsed in
        assign template (fun t => OverrideHosts t (Hosts req));;
        assign template
          (fun t =>
             set_Subject
               (PopulateSubjectFromCSR (ReqSubject req) (CertSubject t)) t);;
        sign template profile serialSeq
      end
  end.

(** ** Accessors *)

Definition SigAlgo : M SignatureAlgorithm :=
  let* s := get_engine in ret (sigAlgo s).

(** [cert := *s.ca; return &cert, nil] *)
Definition Signer_Certificate (label profile : string)
  : M (option ptr * option error) :=
  let* s := get_engine in
  let* p := deref (ca s) in
  let* cert := load p in
  let* a := new cert in
  ret (Some a, None).

Definition SetPolicy (policy : option Signing) : M unit :=
  let* s := get_engine in put_engine (set_policy policy s).

Definition Policy : M (option Signing) :=
  let* s := get_engine in ret (policy s).

(** The engine's state [caCertificate] as the spec has it: the certificate
    [s.ca] points to, absent when [s.ca] is nil. *)
Definition caCertificate (w : World) : option Certificate :=
  match ca (engine w) with
  | Some a => heap w !! a
  | None => None
  end.

End Methods.

(** ** Construction from files ([NewSignerFromFile])

    What the constructor needs from outside: the file system and the two PEM
    parsers of the [helpers] package, and the default signature algorithm of
    a key.  The [log.Debug] lines write to the process logger only. *)

Class Loaders {O : Opaque} : Type := {
  (* ioutil.ReadFile(name) *)
  ioutil_ReadFile : string -> slice byte + error;
  (* helpers.ParseCertificatePEM(pem): both results, as Go returns them *)
  helpers_ParseCertificatePEM : slice byte -> option Certificate * option error;
  (* helpers.ParsePrivateKeyPEM(pem) *)
  helpers_ParsePrivateKeyPEM : slice byte -> PrivateKey + error;
  (* signer.DefaultSigAlgo(priv) *)
  signer_DefaultSigAlgo : PrivateKey -> SignatureAlgorithm
}.

Section FromFile.
Context {O : Opaque} {C : Collaborators} {L : Loaders}.
Local Open Scope go_scope.

Definition NewSignerFromFile (caFile caKeyFile : string)
    (policy : option Signing) : M (option Signer * option error) :=
  match ioutil_ReadFile caFile with
  | inr err => ret (None, Some err)
  | inl ca =>
    match ioutil_ReadFile caKeyFile with
    | inr err =>
      ret (None, Some (cferr_Wrap CertificateError ReadFailed err))
    | inl cakey =>
      let (parsed, err) := helpers_ParseCertificatePEM ca in
      let* parsedCa := match parsed with
                       | Some c => let* a := new c in ret (Some a)
                       | None => ret None
                       end in
      match err with
      | Some err => ret (None, Some err)
      | None =>
        match helpers_ParsePrivateKeyPEM cakey with
        | inr err => ret (None, Some err)
        | inl priv =>
          ret (NewSigner priv parsedCa (signer_DefaultSigAlgo priv) policy)
        end
      end
    end
  end.

End FromFile.

(** ** A concrete set of collaborators

    Small stand-ins on which the operations can be run: keys and errors are
    numbers and strings, DER is two bytes, PEM is the armour line without
    base64, and only dotted-quad IPv4 literals parse as addresses. *)

Module Demo.

Definition opaque : Opaque :=
  {| IP := list N;
     PublicKey := nat;
     PrivateKey := nat;
     SignatureAlgorithm := nat;
     ProfileAttrs := unit;
     CertAttrs := unit;
     ForeignError := string |}.
#[local] Existing Instance opaque.

Fixpoint split_dots (acc s : string) : list string :=
  match s with
  | EmptyString => [acc]
  | String c s' =>
    if Ascii.eqb c "."%char then acc :: split_dots "" s'
    else split_dots (acc ++ String c "") s'
  end.

Definition digit (c : Ascii.ascii) : option N :=
  let n := Ascii.N_of_ascii c in
  if ((48 <=? n) && (n <=? 57))%N then Some (n - 48)%N else None.

Fixpoint decimal (acc : N) (s : string) : option N :=
  match s with
  | EmptyString => Some acc
  | String c s' =>
    match digit c with
    | Some d => decimal (10 * acc + d)%N s'
    | None => None
    end
  end.

Definition octet (s : string) : option N :=
  match s with
  | EmptyString => None
  | _ =>
    match decimal 0%N s with
    | Some n => if (n <=? 255)%N then Some n else None
    | None => None
    end
  end.

Definition ParseIP (s : string) : option (list N) :=
  match split_dots "" s with
  | [a; b; c; d] =>
    match octet a, octet b, octet c, octet d with
    | Some a, Some b, Some c, Some d => Some [a; b; c; d]
    | _, _, _, _ => None
    end
  | _ => None
  end.

Definition Decode (data : slice byte) : option Block :=
  let s := string_of_list_byte (elems data) in
  if String.prefix "-----BEGIN " s then
    let s := String.substring 11 (String.length s - 11) s in
    match String.index 0 "-----" s with
    | Some i =>
      Some (mkBlock (String.substring 0 i s)
              (mk_slice (list_byte_of_string
                 (String.substring (i + 5) (String.length s - (i + 5)) s))))
    | None => None
    end
  else None.

Definition EncodeToMemory (b : Block) : slice byte :=
  mk_slice (list_byte_of_string ("-----BEGIN " ++ BlockType b ++ "-----")
            ++ elems (BlockBytes b)).

Definition FillTemplate (t : Certificate)
    (defaultProfile profile : option SigningProfile) (serialSeq : string)
  : Certificate * option error :=
  match profile, defaultProfile with
  | None, None => (t, Some (foreign "no profile"))
  | _, _ =>
    (mkCertificate (CertSubject t) (DNSNames t) (IPAddresses t) (Some 1%Z)
                   (IsCA t) (MaxPathLen t) (CertPublicKey t) (Attrs t), None)
  end.

Definition CreateCertificate (t parent : Certificate)
    (pub : nat) (key : nat) : slice byte + error :=
  if Nat.eqb pub 0 then inr (foreign "unsupported public key")
  else inl (mk_slice [x30; if IsCA t then x01 else x00]).

Definition ParseCertificate (der : slice byte)
  : option (Certificate) * option error :=
  match elems der with
  | [x30; b] =>
    (Some (mkCertificate zeroName nil_slice nil_slice (Some 1%Z)
             (Byte.eqb b x01) (-1)%Z 1 tt), None)
  | _ => (None, Some (foreign "malformed certificate"))
  end.

Definition ParseCertificateRequest (s : Signer) (csr : slice byte)
  : Certificate + error :=
  match elems csr with
  | [] => inr (cferr_New CertificateError ParseFailed)
  | _ =>
    let body := string_of_list_byte (elems csr) in
    inl (mkCertificate (set_CommonName body zeroName)
           (mk_slice ["csr.example.com"]) nil_slice None
           (String.prefix "CA:" body) 0%Z 7 tt)
  end.

Definition Valid (p : Signing) : bool :=
  match Default p with
  | Some _ => true
  | None => false
  end.

Definition collab : Collaborators :=
  {| signer_MaxPathLen := 2%Z;
     config_DefaultConfig := Some (mkSigningProfile false tt);
     Signing_Valid := Valid;
     signer_FillTemplate := FillTemplate;
     signer_ParseCertificateRequest := ParseCertificateRequest;
     x509_CreateCertificate := CreateCertificate;
     x509_ParseCertificate := ParseCertificate;
     pem_Decode := Decode;
     pem_EncodeToMemory := EncodeToMemory;
     net_ParseIP := ParseIP |}.

#[local] Existing Instance collab.

(** Sample data: a policy with a default profile only, an engine before
    bootstrap and one that holds a CA certificate at address 0. *)

Definition profile0 : SigningProfile := mkSigningProfile false tt.
Definition policy0 : Signing := mkSigning ∅ (Some profile0).
Definition policy_no_default : Signing := mkSigning ∅ None.

Definition engine_fresh : Signer := mkSigner None 5 (Some policy0) 0.
Definition engine_active : Signer := mkSigner (Some 0) 5 (Some policy0) 0.

Definition rootName : Name := set_CommonName "Example Root" zeroName.

Definition caRequest : Certificate :=
  mkCertificate rootName (mk_slice ["ca.example.com"]) nil_slice None
                true 0%Z 7 tt.
Definition caRequest_badkey : Certificate :=
  mkCertificate rootName (mk_slice ["ca.example.com"]) nil_slice None
                true 0%Z 0 tt.
Definition leafRequest : Certificate :=
  mkCertificate (set_CommonName "www.example.com" zeroName)
                (mk_slice ["www.example.com"]) nil_slice None
                false 0%Z 7 tt.
Definition caCert : Certificate :=
  mkCertificate rootName nil_slice nil_slice (Some 1%Z) true 2%Z 9 tt.

Definition world_fresh (template : Certificate) : World :=
  mkWorld engine_fresh [template] [].
Definition world_active (template : Certificate) : World :=
  mkWorld engine_active [caCert; template] [].

(** What a test looks at after a call: the error, [s.ca] and the heap. *)
Definition observe (o : outcome (slice byte * option error))
  : option (option error * option nat * list Certificate) :=
  match o with
  | Ret (_, err) w => Some (err, ca (engine w), heap w)
  | Panic => None
  end.

Definition world_no_default : World :=
  mkWorld (mkSigner None 5 (Some policy_no_default) 0) [leafRequest] [].

End Demo.

(** Stand-ins for the loaders: two files exist, a certificate is the text
    "CERT" and a key the text "KEY". *)

Module DemoFiles.

#[local] Existing Instance Demo.opaque.

Definition ReadFile (name : string) : slice byte + error :=
  if String.eqb name "ca.pem" then inl (mk_slice (list_byte_of_string "CERT"))
  else if String.eqb name "ca-key.pem"
       then inl (mk_slice (list_byte_of_string "KEY"))
  else if String.eqb name "empty.pem" then inl (mk_slice [])
  else inr (foreign "no such file").

Definition ParseCertificatePEM (data : slice byte)
  : option Certificate * option error :=
  if String.eqb (string_of_list_byte (elems data)) "CERT"
  then (Some Demo.caCert, None)
  else (None, Some (cferr_New CertificateError DecodeFailed)).

Definition ParsePrivateKeyPEM (data : slice byte) : nat + error :=
  if String.eqb (string_of_list_byte (elems data)) "KEY"
  then inl 5
  else inr (cferr_New PrivateKeyError DecodeFailed).

Definition loaders : Loaders :=
  {| ioutil_ReadFile := ReadFile;
     helpers_ParseCertificatePEM := ParseCertificatePEM;
     helpers_ParsePrivateKeyPEM := ParsePrivateKeyPEM;
     signer_DefaultSigAlgo := fun key => key + 1 |}.

Definition world_empty : World := mkWorld Demo.engine_fresh [] [].

End DemoFiles.

(** Sample runs, evaluated: a leaf request on an engine that holds a CA
    certificate, a CA request on a fresh engine, and a request through
    [Sign]. *)

Module DemoRuns.

#[local] Existing Instance Demo.opaque.
#[local] Existing Instance Demo.collab.

Definition value {A} (d : A) (o : outcome A) : A :=
  match o with
  | Ret a _ => a
  | Panic => d
  end.

Definition world {A} (d : World) (o : outcome A) : World :=
  match o with
  | Ret _ w => w
  | Panic => d
  end.

Definition leaf_before : World := Demo.world_active Demo.leafRequest.
Definition leaf_out : slice byte * option error :=
  Eval vm_compute in
    value (nil_slice, None) (sign 1 (Some Demo.profile0) "" leaf_before).
Definition leaf_after : World :=
  Eval vm_compute in
    world leaf_before (sign 1 (Some Demo.profile0) "" leaf_before).

Definition root_before : World := Demo.world_fresh Demo.caRequest.
Definition root_out : slice byte * option error :=
  Eval vm_compute in
    value (nil_slice, None) (sign 0 (Some Demo.profile0) "" root_before).
Definition root_after : World :=
  Eval vm_compute in
    world root_before (sign 0 (Some Demo.profile0) "" root_before).

Definition request : SignRequest :=
  mkSignRequest (mk_slice ["10.0.0.1"; "www.example.com"])
                "-----BEGIN CERTIFICATE REQUEST-----www" None "web" "7".
Definition request_without_csr : SignRequest :=
  mkSignRequest nil_slice "-----BEGIN CERTIFICATE REQUEST-----" None "" "".
Definition Sign_out : slice byte * option error :=
  Eval vm_compute in value (nil_slice, None) (Sign request leaf_before).
Definition Sign_after : World :=
  Eval vm_compute in world leaf_before (Sign request leaf_before).

(** The sample collaborators with a certificate parser that refuses
    everything. *)
Definition collab_strict_parser : Collaborators :=
  {| signer_MaxPathLen := 2%Z;
     config_DefaultConfig := Some (mkSigningProfile false tt);
     Signing_Valid := Demo.Valid;
     signer_FillTemplate := Demo.FillTemplate;
     signer_ParseCertificateRequest := Demo.ParseCertificateRequest;
     x509_CreateCertificate := Demo.CreateCertificate;
     x509_ParseCertificate := fun _ => (None, Some (foreign "malformed"));
     pem_Decode := Demo.Decode;
     pem_EncodeToMemory := Demo.EncodeToMemory;
     net_ParseIP := Demo.ParseIP |}.

Definition loaded : outcome (option Signer * option error) :=
  NewSignerFromFile (L:=DemoFiles.loaders) "ca.pem" "ca-key.pem" None
                    DemoFiles.world_empty.
Definition loaded_engine : Signer :=
  Eval vm_compute in
    match value (None, None) loaded with
    | (Some s, _) => s
    | (None, _) => Demo.engine_fresh
    end.
Definition loaded_after : World :=
  Eval vm_compute in world DemoFiles.world_empty loaded.

End DemoRuns.

(** ** The spec's words

    Definitions that follow the wording of the specification, against which
    the operations above are compared. *)

(** The outcome of the merge for one field: the override's value when it is
    not empty, the CSR's value when it is. *)
Definition override_wins_else_csr {A} (is_empty : A -> Prop)
    (override csr merged : A) : Prop :=
  (~ is_empty override -> merged = override) /\
  (is_empty override -> merged = csr).

Definition empty_string (s : string) : Prop := s = "".
Definition empty_slice (s : slice string) : Prop := elems s = [].

Section SpecWords.
Context {O : Opaque} {C : Collaborators}.

(** The hosts that parse as IP literals, as addresses, and the hosts that do
    not, each in the order of the input. *)
Definition ip_hosts (hosts : list string) : list IP := omap net_ParseIP hosts.

Definition dns_hosts (hosts : list string) : list string :=
  filter (fun h => net_ParseIP h = None) hosts.

(** The profile a request is signed under: the one its name has in the
    policy's map, else the default profile. *)
Definition resolved_profile (pol : Signing) (name : string)
  : option SigningProfile :=
  match Profiles pol !! name with
  | Some p => Some p
  | None => Default pol
  end.

(** The template [Sign] hands to [sign]: the parsed request with its hosts
    classified and its subject reconciled. *)
Definition request_template (req : SignRequest) (parsed : Certificate)
  : Certificate :=
  set_Subject (PopulateSubjectFromCSR (ReqSubject req) (CertSubject parsed))
              (OverrideHosts parsed (Hosts req)).

(** The template of a root: no DNS names, the maximal path length. *)
Definition root_template (filled : Certificate) : Certificate :=
  set_MaxPathLen signer_MaxPathLen (set_DNSNames nil_slice filled).

(** The template of an intermediate CA: no DNS names, path length 1. *)
Definition intermediate_template (filled : Certificate) : Certificate :=
  set_DNSNames nil_slice (set_MaxPathLen 1 filled).

End SpecWords.

(** ** Tactics *)

Ltac unfold_go :=
  unfold sign, Sign, Signer_Certificate, SetPolicy, Policy, SigAlgo,
    caCertificate, assign, bind, get_engine, load, store, deref, ret,
    put_engine, new, log_Infof, panic.

(** Symbolic execution: simplify, then use one of the known facts [known]
    or read back a cell of the heap that was just written. *)
Ltac run known :=
  repeat (simpl;
          first [ known
                | rewrite list_lookup_insert_eq
                    by (rewrite ?length_insert; assumption) ]);
  simpl.


(** * Properties *)

(** ** Subject reconciler *)

Lemma replaceSliceIfEmpty_spec (replaced newContents : slice string) :
  override_wins_else_csr empty_slice replaced newContents
    (replaceSliceIfEmpty replaced newContents).
Proof.
  unfold override_wins_else_csr, empty_slice, replaceSliceIfEmpty, len.
  destruct (elems replaced) as [|x l]; simpl; split; intros Hx;
    congruence.
Qed.

Lemma whitelistRequest_no_subject (name : Name) :
  whitelistRequest None name = name.
Proof. reflexivity. Qed.

Lemma whitelistRequest_no_whitelist (names : slice Name) (name : Name) :
  whitelistRequest (Some (mkSubject None names)) name = name.
Proof. reflexivity. Qed.

(** C6. For a subject override with at least one override identity, every
    field of the merged identity is the first override identity's field when
    that field is not empty (CommonName not the empty string, a sequence field
    of length zero counts as empty), and otherwise the field of the CSR
    identity as the whitelist left it. *)
Theorem PopulateSubjectFromCSR_override_precedence
    (wl : option Whitelist) (first : Name) (others : list Name) (req : Name) :
  let s := mkSubject wl (mk_slice (first :: others)) in
  let csr := whitelistRequest (Some s) req in
  let merged := PopulateSubjectFromCSR (Some s) req in
  override_wins_else_csr empty_string
    (CommonName first) (CommonName csr) (CommonName merged) /\
  override_wins_else_csr empty_slice
    (Country first) (Country csr) (Country merged) /\
  override_wins_else_csr empty_slice
    (Province first) (Province csr) (Province merged) /\
  override_wins_else_csr empty_slice
    (Locality first) (Locality csr) (Locality merged) /\
  override_wins_else_csr empty_slice
    (Organization first) (Organization csr) (Organization merged) /\
  override_wins_else_csr empty_slice
    (OrganizationalUnit first) (OrganizationalUnit csr)
    (OrganizationalUnit merged).
Proof.
  intros s csr merged. subst merged. unfold PopulateSubjectFromCSR.
  fold csr. simpl. unfold Subject_Name. simpl.
  split.
  { unfold override_wins_else_csr, empty_string.
    destruct (String.eqb_spec (CommonName first) "") as [Heq|Hne]; simpl;
      split; intros Hx; congruence. }
  destruct (CommonName first =? "")%string; simpl;
    repeat split; try apply replaceSliceIfEmpty_spec.
Qed.

(** The spec's example of override precedence. *)
Example override_precedence_example :
  let override :=
    mkSubject None (mk_slice [set_Organization (mk_slice ["Policy"]) zeroName]) in
  let req :=
    set_Organization (mk_slice ["req-org"]) (set_CommonName "req-cn" zeroName) in
  PopulateSubjectFromCSR (Some override) req =
  set_Organization (mk_slice ["Policy"]) (set_CommonName "req-cn" zeroName).
Proof. reflexivity. Qed.

(** C7. Without a subject override the merge returns the CSR identity as it
    is.  With a whitelist, each of the six fields whose flag is false is
    blanked (the empty string, the empty sequence), the others are kept, and
    the merge with the override identities works on that blanked identity.
    Without a whitelist the CSR identity is kept whole. *)
Theorem whitelist_applied_before_override
    (wl : option Whitelist) (w : Whitelist) (names : slice Name) (req : Name) :
  PopulateSubjectFromCSR None req = req /\
  whitelistRequest (Some (mkSubject (Some w) names)) req =
    mkName (if wl_CN w then CommonName req else "")
           (if wl_C w then Country req else mk_slice [])
           (if wl_ST w then Province req else mk_slice [])
           (if wl_L w then Locality req else mk_slice [])
           (if wl_O w then Organization req else mk_slice [])
           (if wl_OU w then OrganizationalUnit req else mk_slice [])
           (StreetAddress req) (PostalCode req) (NameSerialNumber req) /\
  whitelistRequest (Some (mkSubject None names)) req = req /\
  PopulateSubjectFromCSR (Some (mkSubject wl names)) req =
    PopulateSubjectFromCSR (Some (mkSubject None names))
      (whitelistRequest (Some (mkSubject wl names)) req) /\
  PopulateSubjectFromCSR (Some (mkSubject wl (mk_slice []))) req =
    whitelistRequest (Some (mkSubject wl (mk_slice []))) req.
Proof.
  repeat split.
  destruct w as [[] [] [] [] [] []]; reflexivity.
Qed.

(** The spec's example of whitelisting. *)
Example whitelist_example :
  let override := mkSubject (Some (mkWhitelist false false false false true false))
                            nil_slice in
  let req := set_Organization (mk_slice ["Acme"]) (set_CommonName "x" zeroName) in
  PopulateSubjectFromCSR (Some override) req =
  mkName "" (mk_slice []) (mk_slice []) (mk_slice []) (mk_slice ["Acme"])
         (mk_slice []) nil_slice nil_slice "".
Proof. reflexivity. Qed.

(** ** Host classifier *)

Section HostClassifier.
Context {O : Opaque} {C : Collaborators}.

Lemma ip_hosts_cons (h : string) (hosts : list string) :
  ip_hosts (h :: hosts) =
  match net_ParseIP h with
  | Some ip => ip :: ip_hosts hosts
  | None => ip_hosts hosts
  end.
Proof. unfold ip_hosts. simpl. destruct (net_ParseIP h); reflexivity. Qed.

Lemma dns_hosts_cons (h : string) (hosts : list string) :
  dns_hosts (h :: hosts) =
  match net_ParseIP h with
  | Some _ => dns_hosts hosts
  | None => h :: dns_hosts hosts
  end.
Proof.
  unfold dns_hosts. rewrite filter_cons.
  destruct (net_ParseIP h) eqn:E; case_decide; congruence.
Qed.

(** The loop, started on non-nil SAN lists, extends each of them with its
    share of the hosts. *)
Lemma OverrideHosts_loop (hosts : list string) :
  forall (template : Certificate) (ips : list IP) (dns : list string),
    IPAddresses template = mk_slice ips ->
    DNSNames template = mk_slice dns ->
    fold_left OverrideHosts_step hosts template =
    set_DNSNames (mk_slice (dns ++ dns_hosts hosts))
      (set_IPAddresses (mk_slice (ips ++ ip_hosts hosts)) template).
Proof.
  induction hosts as [|h hosts IH]; intros template ips dns Hip Hdns.
  - destruct template; simpl in *. subst.
    rewrite !app_nil_r. reflexivity.
  - simpl fold_left. rewrite ip_hosts_cons, dns_hosts_cons.
    unfold OverrideHosts_step at 2.
    destruct (net_ParseIP h) as [ip|].
    + rewrite (IH _ (ips ++ [ip])%list dns).
      * rewrite <- app_assoc. destruct template; reflexivity.
      * destruct template; simpl in *. rewrite Hip. reflexivity.
      * destruct template; simpl in *. exact Hdns.
    + rewrite (IH _ ips (dns ++ [h])%list).
      * rewrite <- app_assoc. destruct template; reflexivity.
      * destruct template; simpl in *. exact Hip.
      * destruct template; simpl in *. rewrite Hdns. reflexivity.
Qed.

(** C8. A non-nil host list replaces both SAN lists of the template: the IP
    list becomes the hosts that parse as IP literals and the DNS list the
    other hosts, each in input order, whatever the lists held before; nothing
    else in the template changes.  A nil host list leaves the template as it
    is. *)
Theorem OverrideHosts_replaces_SANs (template : Certificate) (hosts : list string) :
  OverrideHosts template (mk_slice hosts) =
    set_DNSNames (mk_slice (dns_hosts hosts))
      (set_IPAddresses (mk_slice (ip_hosts hosts)) template) /\
  OverrideHosts template nil_slice = template.
Proof.
  split; [|reflexivity].
  unfold OverrideHosts. simpl.
  rewrite OverrideHosts_loop with (ips := []) (dns := []) by reflexivity.
  destruct template; reflexivity.
Qed.

End HostClassifier.

(** The spec's example of host classification. *)
Example host_classification_example :
  let t := OverrideHosts (C:=Demo.collab) Demo.leafRequest
             (mk_slice ["10.0.0.1"; "api.example.com"]) in
  IPAddresses t = mk_slice [[10; 0; 0; 1]%N] /\
  DNSNames t = mk_slice ["api.example.com"].
Proof. split; reflexivity. Qed.

(** ** The signing engine *)

Section SignProperties.
Context {O : Opaque} {C : Collaborators}.

Variables (template : ptr) (profile : option SigningProfile) (serialSeq : string).
Variables (w : World) (pol : Signing) (t filled : Certificate).

(** The engine has a policy, [template] points to [t], and the template
    filler succeeds and leaves [filled] in its place. *)
Hypothesis Hpolicy : policy (engine w) = Some pol.
Hypothesis Htemplate : heap w !! template = Some t.
Hypothesis Hfill :
  signer_FillTemplate t (Default pol) profile serialSeq = (filled, None).

Lemma template_allocated : template < length (heap w).
Proof using Htemplate. eapply lookup_lt_Some; eauto. Qed.

(** C3. On an engine without a CA certificate, signing a template that is
    not a CA fails with PolicyError/InvalidRequest, and the engine still has
    no CA certificate. *)
Theorem sign_bootstrap_rejects_non_CA :
  ca (engine w) = None ->
  IsCA filled = false ->
  exists w',
    sign template profile serialSeq w =
      Ret (nil_slice, Some (cferr_New PolicyError InvalidRequest)) w' /\
    engine w' = engine w /\
    ca (engine w') = None /\
    caCertificate w' = None.
Proof using Hpolicy Htemplate Hfill.
  intros Hca Hleaf.
  pose proof template_allocated as Hlt.
  destruct w as [e h l]; simpl in *.
  eexists. unfold_go.
  run ltac:(first [rewrite Hpolicy | rewrite Htemplate | rewrite Hfill
                  | rewrite Hca | rewrite Hleaf]).
  repeat split; simpl; try assumption.
  rewrite Hca. reflexivity.
Qed.

(** C2. On an engine without a CA certificate, when the template is a CA and
    the operation succeeds (the signature primitive returns DER bytes and
    parsing them back gives no error): the template has lost its DNS names
    and has the maximal path length, the bytes signed are those the
    primitive makes with the template as both subject and issuer, and the
    engine's CA certificate is what parsing those bytes gave. *)
Theorem sign_root_bootstrap (der : slice byte) (parsed : option Certificate) :
  ca (engine w) = None ->
  IsCA filled = true ->
  x509_CreateCertificate (root_template filled) (root_template filled)
    (CertPublicKey (root_template filled)) (priv (engine w)) = inl der ->
  x509_ParseCertificate der = (parsed, None) ->
  exists w',
    sign template profile serialSeq w =
      Ret (pem_EncodeToMemory (mkBlock "CERTIFICATE" der), None) w' /\
    heap w' !! template = Some (root_template filled) /\
    DNSNames (root_template filled) = nil_slice /\
    MaxPathLen (root_template filled) = signer_MaxPathLen /\
    caCertificate w' = parsed.
Proof using Hpolicy Htemplate Hfill.
  intros Hca Hisca Hsign Hparse.
  pose proof template_allocated as Hlt.
  unfold root_template in *.
  destruct w as [e h l]; simpl in *.
  destruct parsed as [c|]; eexists; unfold_go;
    run ltac:(first [rewrite Hpolicy | rewrite Htemplate | rewrite Hfill
                    | rewrite Hca | rewrite Hisca | rewrite Hsign
                    | rewrite Hparse]);
    rewrite !list_insert_insert_eq;
    (split; [reflexivity|]); simpl; repeat split.
  - rewrite lookup_app_l by (rewrite length_insert; assumption).
    apply list_lookup_insert_eq. assumption.
  - rewrite lookup_app_r by reflexivity.
    rewrite Nat.sub_diag. reflexivity.
  - apply list_lookup_insert_eq. assumption.
Qed.

(** C1, as the code has it.  At bootstrap, when the signature primitive
    fails, [sign] returns CertificateError/Unknown and the engine is left
    with the template as its CA certificate: [s.ca = template] is not
    undone. *)
Theorem sign_bootstrap_failure_keeps_template_as_ca (e : error) :
  ca (engine w) = None ->
  IsCA filled = true ->
  x509_CreateCertificate (root_template filled) (root_template filled)
    (CertPublicKey (root_template filled)) (priv (engine w)) = inr e ->
  exists w',
    sign template profile serialSeq w =
      Ret (nil_slice, Some (cferr_Wrap CertificateError Unknown e)) w' /\
    caCertificate w = None /\
    ca (engine w') = Some template /\
    caCertificate w' = Some (root_template filled).
Proof using Hpolicy Htemplate Hfill.
  intros Hca Hisca Hsign.
  pose proof template_allocated as Hlt.
  unfold root_template in *.
  destruct w as [e0 h l]; simpl in *.
  eexists. unfold_go.
  run ltac:(first [rewrite Hpolicy | rewrite Htemplate | rewrite Hfill
                  | rewrite Hca | rewrite Hisca | rewrite Hsign]).
  repeat split.
  rewrite !list_insert_insert_eq.
  apply list_lookup_insert_eq. assumption.
Qed.

(** C4. On an engine that holds a CA certificate, signing a template that is
    a CA leaves the template with path length 1 and no DNS names, whatever
    it held before, and it is this template that goes to the signature
    primitive, with the engine's certificate as issuer; the engine itself
    does not change. *)
Theorem sign_intermediate_constraint (issuer : ptr) (cacert : Certificate) :
  ca (engine w) = Some issuer ->
  heap w !! issuer = Some cacert ->
  IsCA filled = true ->
  exists out w',
    sign template profile serialSeq w = Ret out w' /\
    heap w' !! template = Some (intermediate_template filled) /\
    MaxPathLen (intermediate_template filled) = 1%Z /\
    DNSNames (intermediate_template filled) = nil_slice /\
    len (DNSNames (intermediate_template filled)) = 0 /\
    engine w' = engine w /\
    out =
      match
        x509_CreateCertificate (intermediate_template filled)
          (if decide (issuer = template)
           then intermediate_template filled
           else cacert)
          (CertPublicKey (intermediate_template filled)) (priv (engine w))
      with
      | inl der => (pem_EncodeToMemory (mkBlock "CERTIFICATE" der), None)
      | inr e => (nil_slice, Some (cferr_Wrap CertificateError Unknown e))
      end.
Proof using Hpolicy Htemplate Hfill.
  intros Hca Hissuer Hisca.
  pose proof template_allocated as Hlt.
  unfold intermediate_template in *.
  destruct w as [e h l]; simpl in *.
  destruct (decide (issuer = template)) as [->|Hne].
  - destruct (x509_CreateCertificate
                (set_DNSNames nil_slice (set_MaxPathLen 1 filled))
                (set_DNSNames nil_slice (set_MaxPathLen 1 filled))
                (CertPublicKey filled) (priv e)) as [der|err] eqn:Hsign;
      eexists; eexists; unfold_go;
      run ltac:(first [rewrite Hpolicy | rewrite Htemplate | rewrite Hfill
                      | rewrite Hca | rewrite Hisca | rewrite Hsign]);
      rewrite !list_insert_insert_eq;
      (split; [reflexivity|]); simpl; repeat split;
      apply list_lookup_insert_eq; assumption.
  - assert (Hne' : template <> issuer)
      by (intros Heq; apply Hne; symmetry; exact Heq).
    destruct (x509_CreateCertificate
                (set_DNSNames nil_slice (set_MaxPathLen 1 filled))
                cacert (CertPublicKey filled) (priv e)) as [der|err] eqn:Hsign;
      eexists; eexists; unfold_go;
      run ltac:(first [rewrite Hpolicy | rewrite Htemplate | rewrite Hfill
                      | rewrite Hca | rewrite Hisca | rewrite Hsign
                      | rewrite Hissuer
                      | rewrite list_lookup_insert_ne by exact Hne']);
      rewrite !list_insert_insert_eq;
      (split; [reflexivity|]); simpl; repeat split;
      apply list_lookup_insert_eq; assumption.
Qed.

End SignProperties.

(** A non-CA request on a fresh engine. *)
Lemma sign_bootstrap_rejects_non_CA_witness :
  exists w',
    sign (C:=Demo.collab) 0 (Some Demo.profile0) ""
         (Demo.world_fresh Demo.leafRequest) =
      Ret (nil_slice, Some (cferr_New PolicyError InvalidRequest)) w' /\
    engine w' = engine (Demo.world_fresh Demo.leafRequest) /\
    ca (engine w') = None /\
    caCertificate w' = None.
Proof.
  eapply (@sign_bootstrap_rejects_non_CA Demo.opaque Demo.collab
            0 (Some Demo.profile0) "" (Demo.world_fresh Demo.leafRequest)
            Demo.policy0 Demo.leafRequest);
    reflexivity.
Defined.

(** A CA request on a fresh engine: the engine issues its own root. *)
Lemma sign_root_bootstrap_witness :
  exists w',
    sign (C:=Demo.collab) 0 (Some Demo.profile0) ""
         (Demo.world_fresh Demo.caRequest) =
      Ret (Demo.EncodeToMemory (mkBlock "CERTIFICATE" (mk_slice [x30; x01])),
           None) w' /\
    heap w' !! 0 =
      Some (mkCertificate (O:=Demo.opaque) Demo.rootName nil_slice nil_slice (Some 1%Z)
                          true 2%Z 7 tt) /\
    caCertificate w' = fst (Demo.ParseCertificate (mk_slice [x30; x01])).
Proof.
  destruct (@sign_root_bootstrap Demo.opaque Demo.collab
              0 (Some Demo.profile0) "" (Demo.world_fresh Demo.caRequest)
              Demo.policy0 Demo.caRequest
              (fst (Demo.FillTemplate Demo.caRequest (Some Demo.profile0)
                      (Some Demo.profile0) ""))
              eq_refl eq_refl eq_refl
              (mk_slice [x30; x01])
              (fst (Demo.ParseCertificate (mk_slice [x30; x01])))
              eq_refl eq_refl eq_refl eq_refl)
    as (w' & Hrun & Htpl & _ & _ & Hca).
  exists w'. split; [exact Hrun | split; [exact Htpl | exact Hca]].
Defined.

(** A CA request with a key the primitive refuses, on a fresh engine: the
    call fails and the engine is left pointing at the request's template. *)
Lemma sign_bootstrap_failure_keeps_template_as_ca_witness :
  exists w',
    sign (C:=Demo.collab) 0 (Some Demo.profile0) ""
         (Demo.world_fresh Demo.caRequest_badkey) =
      Ret (nil_slice,
           Some (cferr_Wrap CertificateError Unknown
                   (foreign (O:=Demo.opaque) "unsupported public key"))) w' /\
    caCertificate (Demo.world_fresh Demo.caRequest_badkey) = None /\
    ca (engine w') = Some 0 /\
    caCertificate w' =
      Some (mkCertificate (O:=Demo.opaque) Demo.rootName nil_slice nil_slice (Some 1%Z)
                          true 2%Z 0 tt).
Proof.
  exact (@sign_bootstrap_failure_keeps_template_as_ca Demo.opaque Demo.collab
           0 (Some Demo.profile0) "" (Demo.world_fresh Demo.caRequest_badkey)
           Demo.policy0 Demo.caRequest_badkey
           (fst (Demo.FillTemplate Demo.caRequest_badkey (Some Demo.profile0)
                   (Some Demo.profile0) ""))
           eq_refl eq_refl eq_refl
           (foreign (O:=Demo.opaque) "unsupported public key")
           eq_refl eq_refl eq_refl).
Defined.

(** What follows from it: the next request, which is not a CA and which a
    fresh engine refuses, is now signed, with the unsigned template of the
    failed request as issuer. *)
Example sign_after_failed_bootstrap :
  let w := mkWorld Demo.engine_fresh
                   [Demo.caRequest_badkey; Demo.leafRequest] [] in
  let filled t :=
    fst (Demo.FillTemplate t (Some Demo.profile0) (Some Demo.profile0) "") in
  Demo.observe (sign (C:=Demo.collab) 1 (Some Demo.profile0) "" w) =
    Some (Some (cferr_New PolicyError InvalidRequest), None,
          [Demo.caRequest_badkey; filled Demo.leafRequest]) /\
  Demo.observe
    (bind (sign (C:=Demo.collab) 0 (Some Demo.profile0) "")
          (fun _ => sign (C:=Demo.collab) 1 (Some Demo.profile0) "") w) =
    Some (None, Some 0,
          [root_template (C:=Demo.collab) (filled Demo.caRequest_badkey);
           filled Demo.leafRequest]).
Proof. split; vm_compute; reflexivity. Qed.

(** A CA request on an engine that holds a CA certificate. *)
Lemma sign_intermediate_constraint_witness :
  exists out (w' : World (O:=Demo.opaque)) signed,
    sign (C:=Demo.collab) 1 (Some Demo.profile0) ""
         (Demo.world_active Demo.caRequest) = Ret out w' /\
    heap w' !! 1 = Some signed /\
    MaxPathLen signed = 1%Z /\
    DNSNames signed = nil_slice /\
    engine w' = Demo.engine_active.
Proof.
  destruct (@sign_intermediate_constraint Demo.opaque Demo.collab
              1 (Some Demo.profile0) "" (Demo.world_active Demo.caRequest)
              Demo.policy0 Demo.caRequest
              (fst (Demo.FillTemplate Demo.caRequest (Some Demo.profile0)
                      (Some Demo.profile0) ""))
              eq_refl eq_refl eq_refl 0 Demo.caCert eq_refl eq_refl eq_refl)
    as (out & w' & Hrun & Htpl & Hlen & Hdns & _ & Heng & _).
  exists out, w'. eexists.
  split; [exact Hrun | split; [exact Htpl | ]].
  split; [exact Hlen | split; [exact Hdns | exact Heng]].
Defined.

(** ** The other ways [sign] fails *)

Section SignFailures.
Context {O : Opaque} {C : Collaborators}.

Variables (template : ptr) (profile : option SigningProfile) (serialSeq : string).
Variables (w : World) (pol : Signing) (t filled : Certificate).
Hypothesis Hpolicy : policy (engine w) = Some pol.
Hypothesis Htemplate : heap w !! template = Some t.

(** An error of the template filler is returned as it is, and the engine is
    as it was. *)
Lemma sign_filler_failure (e : error) :
  signer_FillTemplate t (Default pol) profile serialSeq = (filled, Some e) ->
  exists w',
    sign template profile serialSeq w = Ret (nil_slice, Some e) w' /\
    engine w' = engine w.
Proof using Hpolicy Htemplate.
  intros Hfill.
  destruct w as [e0 h l]; simpl in *.
  eexists. unfold_go.
  run ltac:(first [rewrite Hpolicy | rewrite Htemplate | rewrite Hfill]).
  split; reflexivity.
Qed.

(** At bootstrap, when parsing the signed bytes back fails, [s.ca] receives
    the first result of the parser together with the error; with a parser
    that returns nil beside an error, as Go's does, the engine is again
    without a CA certificate. *)
Lemma sign_reparse_failure (der : slice byte) (e : error) :
  signer_FillTemplate t (Default pol) profile serialSeq = (filled, None) ->
  ca (engine w) = None ->
  IsCA filled = true ->
  x509_CreateCertificate (root_template filled) (root_template filled)
    (CertPublicKey filled) (priv (engine w)) = inl der ->
  x509_ParseCertificate der = (None, Some e) ->
  exists w',
    sign template profile serialSeq w =
      Ret (nil_slice, Some (cferr_Wrap CertificateError ParseFailed e)) w' /\
    ca (engine w') = None.
Proof using Hpolicy Htemplate.
  intros Hfill Hca Hisca Hsign Hparse.
  assert (Hlt : template < length (heap w)) by (eapply lookup_lt_Some; eauto).
  unfold root_template in *.
  destruct w as [e0 h l]; simpl in *.
  eexists. unfold_go.
  run ltac:(first [rewrite Hpolicy | rewrite Htemplate | rewrite Hfill
                  | rewrite Hca | rewrite Hisca | rewrite Hsign
                  | rewrite Hparse]).
  split; reflexivity.
Qed.

End SignFailures.

(** ** Construction and the accessors *)

Section Accessors.
Context {O : Opaque} {C : Collaborators}.

(** C5, as amended.  [NewSigner] consults the validity predicate on the
    policy it was given, or on the default policy it puts in the place of a
    nil one: an invalid policy gives PolicyError/InvalidPolicy and no
    engine, a valid one gives an engine with that policy.  [SetPolicy]
    installs the policy it is given, whatever it is, and cannot fail. *)
Theorem policy_validated_at_construction
    (key : PrivateKey) (cert : option ptr) (algo : SignatureAlgorithm)
    (given : option Signing) (w : World) :
  let checked :=
    match given with
    | Some p => p
    | None => mkSigning ∅ config_DefaultConfig
    end in
  (Signing_Valid checked = false ->
   NewSigner key cert algo given =
     (None, Some (cferr_New PolicyError InvalidPolicy))) /\
  (Signing_Valid checked = true ->
   NewSigner key cert algo given =
     (Some (mkSigner cert key (Some checked) algo), None)) /\
  SetPolicy given w =
    Ret tt (mkWorld (set_policy given (engine w)) (heap w) (infolog w)).
Proof.
  intros checked. unfold NewSigner. fold checked.
  repeat split; intros Hvalid; rewrite Hvalid; reflexivity.
Qed.

(** C10. [Certificate] dereferences [s.ca] whatever it is: on an engine
    without a CA certificate the call panics, and no error is returned; on
    an engine with one it returns a pointer to a new copy of the certificate
    and a nil error, for any label and profile, and changes nothing else. *)
Theorem Certificate_dereferences_ca (label profile : string) (w : World) :
  (ca (engine w) = None -> Signer_Certificate label profile w = Panic) /\
  (forall (p : ptr) (c : Certificate),
      ca (engine w) = Some p ->
      heap w !! p = Some c ->
      exists (a : ptr) (w' : World),
        Signer_Certificate label profile w = Ret (Some a, None) w' /\
        a <> p /\
        heap w' !! a = Some c /\
        heap w' !! p = Some c /\
        engine w' = engine w).
Proof.
  destruct w as [e h l]; simpl. split.
  - intros Hca. unfold_go. simpl. rewrite Hca. reflexivity.
  - intros p c Hca Hp.
    assert (Hlt : p < length h) by (eapply lookup_lt_Some; eauto).
    exists (length h). eexists. unfold_go. simpl. rewrite Hca. simpl.
    rewrite Hp. simpl. split; [reflexivity|]. simpl. repeat split.
    + lia.
    + rewrite lookup_app_r by reflexivity. rewrite Nat.sub_diag. reflexivity.
    + rewrite lookup_app_l by assumption. exact Hp.
Qed.

(** C9. On an engine with a policy in which the request's profile resolves
    (by its name, or to the default profile): when the request's bytes hold
    no PEM block, [Sign] fails with CertificateError/DecodeFailed; when the
    first block is of a type other than "CERTIFICATE REQUEST", it fails with
    CertificateError/BadRequest.  Either way no bytes are returned and the
    engine, the heap and the log are as they were. *)
Theorem Sign_rejects_undecodable_request
    (req : SignRequest) (w : World) (pol : Signing) :
  policy (engine w) = Some pol ->
  is_Some (Profiles pol !! Profile req) \/ is_Some (Default pol) ->
  let data := mk_slice (list_byte_of_string (Request req)) in
  (pem_Decode data = None ->
   Sign req w =
     Ret (nil_slice, Some (cferr_New CertificateError DecodeFailed)) w) /\
  (forall block : Block,
      pem_Decode data = Some block ->
      BlockType block <> "CERTIFICATE REQUEST" ->
      exists e : error,
        Sign req w = Ret (nil_slice, Some e) w /\
        kind e = Some (CertificateError, BadRequest)).
Proof.
  intros Hpol Hprofile data.
  assert (Hresolved :
            exists prof,
              match Profiles pol !! Profile req with
              | None => Default pol
              | Some _ => Profiles pol !! Profile req
              end = Some prof).
  { destruct (Profiles pol !! Profile req) as [p|] eqn:Hp.
    - exists p. reflexivity.
    - destruct Hprofile as [[p Hsome]|[p Hsome]]; [discriminate|].
      exists p. exact Hsome. }
  destruct Hresolved as [prof Hprof].
  destruct w as [e h l]; simpl in *. split.
  - intros Hnone. unfold_go. simpl. rewrite Hpol. simpl.
    rewrite Hprof. simpl. fold data. rewrite Hnone. reflexivity.
  - intros block Hblock Htype. eexists. unfold_go. simpl.
    rewrite Hpol. simpl. rewrite Hprof. simpl. fold data. rewrite Hblock.
    apply String.eqb_neq in Htype. rewrite Htype. simpl.
    split; reflexivity.
Qed.

End Accessors.

(** C5, as stated, fails for the setter: a policy without a default profile
    is invalid for the sample validity predicate, [NewSigner] refuses it,
    and [SetPolicy] installs it without a word. *)
Lemma SetPolicy_accepts_invalid_policy :
  @Signing_Valid Demo.opaque Demo.collab Demo.policy_no_default = false /\
  NewSigner (C:=Demo.collab) 5 None 0 (Some Demo.policy_no_default) =
    (None, Some (cferr_New PolicyError InvalidPolicy)) /\
  SetPolicy (Some Demo.policy_no_default) (Demo.world_fresh Demo.leafRequest) =
    Ret tt Demo.world_no_default.
Proof. repeat split. Qed.

(** After that replacement a signing request no longer fails with an
    error: resolving the profile dereferences nil. *)
Example Sign_after_invalid_policy :
  Sign (C:=Demo.collab)
       (mkSignRequest nil_slice "-----BEGIN CERTIFICATE REQUEST-----x" None "" "")
       Demo.world_no_default = Panic.
Proof. reflexivity. Qed.

(** An engine before bootstrap: the accessor panics; an engine with a CA
    certificate at address 0: the accessor returns a copy at address 2. *)
Example Certificate_examples :
  Signer_Certificate "" "" (Demo.world_fresh Demo.leafRequest) = Panic /\
  Signer_Certificate "" "" (Demo.world_active Demo.leafRequest) =
    Ret (Some 2, None)
        (mkWorld Demo.engine_active
                 (heap (Demo.world_active Demo.leafRequest) ++ [Demo.caCert]) []).
Proof. split; reflexivity. Qed.

(** Bytes that are not PEM, and a PEM block of type "CERTIFICATE". *)
Lemma Sign_rejects_undecodable_request_witness :
  let w := Demo.world_active Demo.leafRequest in
  Sign (C:=Demo.collab) (mkSignRequest nil_slice "not a PEM block" None "" "") w =
    Ret (nil_slice, Some (cferr_New CertificateError DecodeFailed)) w /\
  exists e : error,
    Sign (C:=Demo.collab)
         (mkSignRequest nil_slice "-----BEGIN CERTIFICATE-----MIIB" None "" "") w =
      Ret (nil_slice, Some e) w /\
    kind e = Some (CertificateError, BadRequest).
Proof.
  intros w. split.
  - refine (proj1 (@Sign_rejects_undecodable_request Demo.opaque Demo.collab
                     (mkSignRequest nil_slice "not a PEM block" None "" "")
                     w Demo.policy0 eq_refl
                     (or_intror (ex_intro _ Demo.profile0 eq_refl)))
                  eq_refl).
  - refine (proj2 (@Sign_rejects_undecodable_request Demo.opaque Demo.collab
                     (mkSignRequest nil_slice "-----BEGIN CERTIFICATE-----MIIB"
                                    None "" "")
                     w Demo.policy0 eq_refl
                     (or_intror (ex_intro _ Demo.profile0 eq_refl)))
                  (mkBlock "CERTIFICATE" (mk_slice (list_byte_of_string "MIIB")))
                  eq_refl _).
    discriminate.
Defined.

(** ** The whole of [Sign] on the sample collaborators *)

(** A CA request with a host list, on an engine that holds a CA
    certificate: the hosts are classified, then the hierarchy guard drops
    the DNS names and sets the path length to 1. *)
Example Sign_intermediate_example :
  Demo.observe
    (Sign (C:=Demo.collab)
          (mkSignRequest (mk_slice ["10.0.0.1"; "sub.example.com"])
                         "-----BEGIN CERTIFICATE REQUEST-----CA:sub" None "" "")
          (Demo.world_active Demo.leafRequest)) =
  Some (None, Some 0,
        [Demo.caCert; Demo.leafRequest;
         mkCertificate (O:=Demo.opaque) (set_CommonName "CA:sub" zeroName)
           nil_slice (mk_slice [[10; 0; 0; 1]%N]) (Some 1%Z) true 1%Z 7 tt]).
Proof. vm_compute. reflexivity. Qed.

(** The same request on a fresh engine makes it its own root: the template
    (address 1) has no DNS names and the maximal path length, and the engine
    holds the certificate parsed back (address 2). *)
Example Sign_bootstrap_example :
  Demo.observe
    (Sign (C:=Demo.collab)
          (mkSignRequest (mk_slice ["10.0.0.1"; "sub.example.com"])
                         "-----BEGIN CERTIFICATE REQUEST-----CA:root" None "" "")
          (Demo.world_fresh Demo.leafRequest)) =
  Some (None, Some 2,
        [Demo.leafRequest;
         mkCertificate (O:=Demo.opaque) (set_CommonName "CA:root" zeroName)
           nil_slice (mk_slice [[10; 0; 0; 1]%N]) (Some 1%Z) true 2%Z 7 tt;
         mkCertificate (O:=Demo.opaque) zeroName nil_slice nil_slice
           (Some 1%Z) true (-1)%Z 1 tt]).
Proof. vm_compute. reflexivity. Qed.

(** A request that is not a CA, on a fresh engine, is refused. *)
Example Sign_bootstrap_rejected_example :
  Demo.observe
    (Sign (C:=Demo.collab)
          (mkSignRequest nil_slice
                         "-----BEGIN CERTIFICATE REQUEST-----www" None "" "")
          (Demo.world_fresh Demo.leafRequest)) =
  Some (Some (cferr_New PolicyError InvalidRequest), None,
        [Demo.leafRequest;
         mkCertificate (O:=Demo.opaque) (set_CommonName "www" zeroName)
           (mk_slice ["csr.example.com"]) nil_slice (Some 1%Z) false 0%Z 7 tt]).
Proof. vm_compute. reflexivity. Qed.

(** * Further properties of the engine *)

Local Open Scope list_scope.

(** ** [sign] in closed form *)

Section SignClosedForm.
Context {O : Opaque} {C : Collaborators}.

Variables (template : ptr) (profile : option SigningProfile) (serialSeq : string).
Variables (w : World) (pol : Signing) (t : Certificate).
Hypothesis Hpolicy : policy (engine w) = Some pol.
Hypothesis Htemplate : heap w !! template = Some t.

(** On an engine with a policy and an allocated template, the outcome of
    [sign] as a function of what the collaborators return. *)
Lemma sign_closed_form :
  sign template profile serialSeq w =
  let (filled, ferr) := signer_FillTemplate t (Default pol) profile serialSeq in
  let pem der := pem_EncodeToMemory (mkBlock "CERTIFICATE" der) in
  match ferr with
  | Some e =>
    Ret (nil_slice, Some e)
        (mkWorld (engine w) (<[template:=filled]> (heap w)) (infolog w))
  | None =>
    match ca (engine w) with
    | None =>
      if IsCA filled then
        let root := root_template filled in
        let h := <[template:=root]> (heap w) in
        let s := set_ca (Some template) (engine w) in
        match x509_CreateCertificate root root (CertPublicKey filled)
                (priv (engine w)) with
        | inr e =>
          Ret (nil_slice, Some (cferr_Wrap CertificateError Unknown e))
              (mkWorld s h (infolog w))
        | inl der =>
          let (parsed, perr) := x509_ParseCertificate der in
          let h' := match parsed with
                    | Some c => (h ++ [c])%list
                    | None => h
                    end in
          let s' := set_ca (match parsed with
                            | Some _ => Some (length h)
                            | None => None
                            end) s in
          match perr with
          | Some e =>
            Ret (nil_slice, Some (cferr_Wrap CertificateError ParseFailed e))
                (mkWorld s' h' (infolog w))
          | None =>
            Ret (pem der, None)
                (mkWorld s' h' (infolog w ++ [SerialNumber filled]))
          end
        end
      else
        Ret (nil_slice, Some (cferr_New PolicyError InvalidRequest))
            (mkWorld (engine w) (<[template:=filled]> (heap w)) (infolog w))
    | Some issuer =>
      let tpl :=
        if IsCA filled then intermediate_template filled else filled in
      let h := <[template:=tpl]> (heap w) in
      match h !! issuer with
      | None => Panic
      | Some parent =>
        match x509_CreateCertificate tpl parent (CertPublicKey filled)
                (priv (engine w)) with
        | inr e =>
          Ret (nil_slice, Some (cferr_Wrap CertificateError Unknown e))
              (mkWorld (engine w) h (infolog w))
        | inl der =>
          Ret (pem der, None)
              (mkWorld (engine w) h (infolog w ++ [SerialNumber filled]))
        end
      end
    end
  end.
Proof using Hpolicy Htemplate.
  assert (Hlt : template < length (heap w)) by (eapply lookup_lt_Some; eauto).
  destruct w as [e h l]; simpl in *.
  unfold root_template, intermediate_template.
  destruct (signer_FillTemplate t (Default pol) profile serialSeq)
    as [filled [ferr|]] eqn:Hfill.
  { unfold_go.
    run ltac:(first [rewrite Hpolicy | rewrite Htemplate | rewrite Hfill]).
    reflexivity. }
  destruct (ca e) as [issuer|] eqn:Hca; destruct (IsCA filled) eqn:Hisca;
    unfold_go;
    run ltac:(first [rewrite Hpolicy | rewrite Htemplate | rewrite Hfill
                    | rewrite Hca | rewrite Hisca ]);
    rewrite ?list_insert_insert_eq.
  - destruct (_ !! issuer) as [parent|]; simpl; [|reflexivity].
    destruct (x509_CreateCertificate _ _ _ _); reflexivity.
  - destruct (_ !! issuer) as [parent|]; simpl; [|reflexivity].
    destruct (x509_CreateCertificate _ _ _ _); reflexivity.
  - destruct (x509_CreateCertificate _ _ _ _) as [der|err]; [|reflexivity].
    destruct (x509_ParseCertificate der) as [[c|] [perr|]]; reflexivity.
  - reflexivity.
Qed.

End SignClosedForm.

Section SignEffects.
Context {O : Opaque} {C : Collaborators}.

Variables (template : ptr) (profile : option SigningProfile) (serialSeq : string).
Variables (w w' : World) (cert : slice byte) (err : option error).

(** [sign] panics on an engine without a policy and on a template that is
    not allocated; when it returns, there were both. *)
Lemma sign_returns :
  sign template profile serialSeq w = Ret (cert, err) w' ->
  exists pol t, policy (engine w) = Some pol /\ heap w !! template = Some t.
Proof.
  destruct w as [e h l]. unfold_go. simpl.
  destruct (policy e) as [pol|]; simpl; [|discriminate].
  destruct (h !! template) as [t|]; simpl; [|discriminate].
  intros _. exists pol, t. split; reflexivity.
Qed.

(** Everything a returning call of [sign] does to the world. *)
Lemma sign_effects :
  sign template profile serialSeq w = Ret (cert, err) w' ->
  (priv (engine w') = priv (engine w) /\
   policy (engine w') = policy (engine w) /\
   sigAlgo (engine w') = sigAlgo (engine w)) /\
  (is_Some (ca (engine w)) -> engine w' = engine w) /\
  length (heap w) <= length (heap w') /\
  (forall p : ptr,
      p <> template -> p < length (heap w) -> heap w' !! p = heap w !! p) /\
  (is_Some err -> cert = nil_slice /\ infolog w' = infolog w) /\
  (err = None ->
   (exists der, cert = pem_EncodeToMemory (mkBlock "CERTIFICATE" der)) /\
   exists signed,
     heap w' !! template = Some signed /\
     infolog w' = (infolog w ++ [SerialNumber signed])%list).
Proof.
  intros Hrun.
  destruct (sign_returns Hrun) as (pol & t & Hpol & Ht).
  assert (Hlt : template < length (heap w)) by (eapply lookup_lt_Some; eauto).
  rewrite (@sign_closed_form _ _ template profile serialSeq w pol t Hpol Ht)
    in Hrun.
  assert (Hframe : forall (c : Certificate) (p : ptr),
             p <> template -> <[template:=c]> (heap w) !! p = heap w !! p).
  { intros c p Hp. apply list_lookup_insert_ne. congruence. }
  assert (Hframe' : forall (c d : Certificate) (p : ptr),
             p <> template -> p < length (heap w) ->
             (<[template:=c]> (heap w) ++ [d]) !! p = heap w !! p).
  { intros c d p Hp Hlen.
    rewrite lookup_app_l by (rewrite length_insert; exact Hlen).
    apply Hframe. exact Hp. }
  assert (Hcell : forall (c d : Certificate),
             (<[template:=c]> (heap w) ++ [d]) !! template = Some c).
  { intros c d. rewrite lookup_app_l by (rewrite length_insert; exact Hlt).
    apply list_lookup_insert_eq. exact Hlt. }
  assert (Hwritten : forall c : Certificate,
             <[template:=c]> (heap w) !! template = Some c).
  { intros c. apply list_lookup_insert_eq. exact Hlt. }
  destruct (signer_FillTemplate t (Default pol) profile serialSeq)
    as [filled [ferr|]]; cbv beta iota zeta in Hrun;
    [| destruct (ca (engine w)) as [issuer|] eqn:Hca;
       [ destruct (_ !! issuer) as [parent|]; [|discriminate];
         destruct (x509_CreateCertificate _ _ _ _) as [der|e]
       | destruct (IsCA filled);
         [ destruct (x509_CreateCertificate _ _ _ _) as [der|e];
           [ destruct (x509_ParseCertificate der) as [[c|] [perr|]];
             cbv beta iota zeta in Hrun | ]
         | ] ] ];
    inversion Hrun; subst; simpl;
    rewrite ?length_app, ?length_insert; simpl;
    repeat split; intros; auto; try lia; try discriminate;
    try (match goal with
         | Hnone : is_Some None |- _ => destruct Hnone; discriminate
         end);
    try (eexists; reflexivity);
    try (eexists; split;
         [ first [apply Hwritten | apply Hcell]
         | try (destruct (IsCA filled)); reflexivity ]).
Qed.

End SignEffects.

(** ** What a returning call of [sign] does and does not do *)

Section SignInvariants.
Context {O : Opaque} {C : Collaborators}.

Variables (template : ptr) (profile : option SigningProfile) (serialSeq : string).
Variables (w w' : World) (cert : slice byte) (err : option error).

(** X1. Whatever [sign] returns, error or not, the engine keeps its key, its
    policy and its signature algorithm: only [s.ca] can change. *)
Theorem sign_keeps_key_policy_algorithm :
  sign template profile serialSeq w = Ret (cert, err) w' ->
  priv (engine w') = priv (engine w) /\
  policy (engine w') = policy (engine w) /\
  sigAlgo (engine w') = sigAlgo (engine w).
Proof. intros Hrun. exact (proj1 (@sign_effects _ _ _ _ _ _ _ _ _ Hrun)). Qed.

(** X2. [sign] writes through no pointer but [template]: every other
    certificate that was allocated before the call is the same after it,
    and no certificate is freed. *)
Theorem sign_touches_only_template :
  sign template profile serialSeq w = Ret (cert, err) w' ->
  length (heap w) <= length (heap w') /\
  forall p : ptr,
    p <> template -> p < length (heap w) -> heap w' !! p = heap w !! p.
Proof.
  intros Hrun.
  destruct (@sign_effects _ _ _ _ _ _ _ _ _ Hrun)
    as (_ & _ & Hlen & Hframe & _).
  split; assumption.
Qed.

(** X3. Once the engine holds a CA certificate, [sign] on a template other
    than that certificate changes neither the engine nor the certificate it
    holds, whether the call succeeds or fails. *)
Theorem sign_active_engine_unchanged (issuer : ptr) (cacert : Certificate) :
  sign template profile serialSeq w = Ret (cert, err) w' ->
  ca (engine w) = Some issuer ->
  heap w !! issuer = Some cacert ->
  issuer <> template ->
  engine w' = engine w /\ caCertificate w' = Some cacert.
Proof.
  intros Hrun Hca Hissuer Hne.
  destruct (@sign_effects _ _ _ _ _ _ _ _ _ Hrun) as (_ & Hengine & _ & Hframe & _).
  assert (Heq : engine w' = engine w) by (apply Hengine; rewrite Hca; eauto).
  split; [exact Heq|].
  unfold caCertificate. rewrite Heq, Hca, <- Hissuer.
  apply Hframe; [exact Hne|]. eapply lookup_lt_Some; eauto.
Qed.

(** X4. A call that returns an error returns no bytes and logs nothing; a
    call that returns no error returns a PEM block of type "CERTIFICATE" and
    logs one record, the serial number of the template as signed. *)
Theorem sign_result_shape :
  sign template profile serialSeq w = Ret (cert, err) w' ->
  (is_Some err -> cert = nil_slice /\ infolog w' = infolog w) /\
  (err = None ->
   (exists der, cert = pem_EncodeToMemory (mkBlock "CERTIFICATE" der)) /\
   exists signed,
     heap w' !! template = Some signed /\
     infolog w' = infolog w ++ [SerialNumber signed]).
Proof.
  intros Hrun.
  destruct (@sign_effects _ _ _ _ _ _ _ _ _ Hrun)
    as (_ & _ & _ & _ & Hfail & Hok).
  split; assumption.
Qed.

End SignInvariants.

Section SignBranches.
Context {O : Opaque} {C : Collaborators}.

Variables (template : ptr) (profile : option SigningProfile) (serialSeq : string).
Variables (w : World) (pol : Signing) (t filled : Certificate).
Hypothesis Hpolicy : policy (engine w) = Some pol.
Hypothesis Htemplate : heap w !! template = Some t.

(** X5. When the template filler fails, [sign] returns the filler's error
    as it is; the engine and the log are untouched, and the template holds
    whatever the filler left in it. *)
Theorem sign_filler_error (e : error) :
  signer_FillTemplate t (Default pol) profile serialSeq = (filled, Some e) ->
  sign template profile serialSeq w =
    Ret (nil_slice, Some e)
        (mkWorld (engine w) (<[template:=filled]> (heap w)) (infolog w)).
Proof using Hpolicy Htemplate.
  intros Hfill.
  rewrite (@sign_closed_form _ _ template profile serialSeq w pol t
             Hpolicy Htemplate).
  rewrite Hfill. reflexivity.
Qed.

(** X6. Leaf issuance: on an engine that holds a CA certificate, a template
    that is not a CA goes to the signature primitive exactly as the filler
    left it, with the engine's certificate as issuer; the engine does not
    change. *)
Theorem sign_leaf_issuance (issuer : ptr) (cacert : Certificate) :
  signer_FillTemplate t (Default pol) profile serialSeq = (filled, None) ->
  ca (engine w) = Some issuer ->
  heap w !! issuer = Some cacert ->
  IsCA filled = false ->
  exists out w',
    sign template profile serialSeq w = Ret out w' /\
    heap w' !! template = Some filled /\
    engine w' = engine w /\
    out =
      match
        x509_CreateCertificate filled
          (if decide (issuer = template) then filled else cacert)
          (CertPublicKey filled) (priv (engine w))
      with
      | inl der => (pem_EncodeToMemory (mkBlock "CERTIFICATE" der), None)
      | inr e => (nil_slice, Some (cferr_Wrap CertificateError Unknown e))
      end.
Proof using Hpolicy Htemplate.
  intros Hfill Hca Hissuer Hleaf.
  assert (Hlt : template < length (heap w)) by (eapply lookup_lt_Some; eauto).
  rewrite (@sign_closed_form _ _ template profile serialSeq w pol t
             Hpolicy Htemplate).
  rewrite Hfill, Hca, Hleaf. cbv beta iota zeta.
  destruct (decide (issuer = template)) as [->|Hne].
  - rewrite list_lookup_insert_eq by exact Hlt.
    destruct (x509_CreateCertificate _ _ _ _); eexists; eexists;
      (split; [reflexivity|]); simpl; repeat split;
      apply list_lookup_insert_eq; exact Hlt.
  - rewrite list_lookup_insert_ne by congruence. rewrite Hissuer.
    destruct (x509_CreateCertificate _ _ _ _); eexists; eexists;
      (split; [reflexivity|]); simpl; repeat split;
      apply list_lookup_insert_eq; exact Hlt.
Qed.

(** X7. At bootstrap, when parsing the signed bytes back returns an error,
    [sign] fails with CertificateError/ParseFailed, logs nothing, and the
    engine's CA certificate is whatever the parser returned beside the
    error: absent with a parser that returns nil there. *)
Theorem sign_reparse_error (der : slice byte) (parsed : option Certificate)
    (e : error) :
  signer_FillTemplate t (Default pol) profile serialSeq = (filled, None) ->
  ca (engine w) = None ->
  IsCA filled = true ->
  x509_CreateCertificate (root_template filled) (root_template filled)
    (CertPublicKey filled) (priv (engine w)) = inl der ->
  x509_ParseCertificate der = (parsed, Some e) ->
  exists w',
    sign template profile serialSeq w =
      Ret (nil_slice, Some (cferr_Wrap CertificateError ParseFailed e)) w' /\
    caCertificate w' = parsed /\
    infolog w' = infolog w.
Proof using Hpolicy Htemplate.
  intros Hfill Hca Hisca Hsign Hparse.
  rewrite (@sign_closed_form _ _ template profile serialSeq w pol t
             Hpolicy Htemplate).
  rewrite Hfill, Hca, Hisca. cbv beta iota zeta.
  rewrite Hsign, Hparse. eexists. split; [reflexivity|].
  unfold caCertificate. destruct parsed as [c|]; simpl; split; try reflexivity.
  rewrite lookup_app_r by reflexivity. rewrite Nat.sub_diag. reflexivity.
Qed.

End SignBranches.

(** ** [Sign] *)

Section SignRequestProperties.
Context {O : Opaque} {C : Collaborators}.

(** The host classifier changes the two SAN lists and nothing else. *)
Lemma OverrideHosts_keeps_rest (template : Certificate) (hosts : slice string) :
  let t' := OverrideHosts template hosts in
  CertSubject t' = CertSubject template /\
  SerialNumber t' = SerialNumber template /\
  IsCA t' = IsCA template /\
  MaxPathLen t' = MaxPathLen template /\
  CertPublicKey t' = CertPublicKey template /\
  Attrs t' = Attrs template.
Proof.
  assert (Hloop : forall (hs : list string) (c : Certificate),
             let c' := fold_left OverrideHosts_step hs c in
             CertSubject c' = CertSubject c /\
             SerialNumber c' = SerialNumber c /\
             IsCA c' = IsCA c /\
             MaxPathLen c' = MaxPathLen c /\
             CertPublicKey c' = CertPublicKey c /\
             Attrs c' = Attrs c).
  { induction hs as [|h hs IH]; intros c; simpl; [repeat split|].
    destruct (IH (OverrideHosts_step c h)) as (H1 & H2 & H3 & H4 & H5 & H6).
    rewrite H1, H2, H3, H4, H5, H6. unfold OverrideHosts_step.
    destruct (net_ParseIP h); repeat split. }
  unfold OverrideHosts. destruct hosts as [|hs]; simpl.
  - repeat split.
  - destruct (Hloop hs (set_DNSNames (mk_slice [])
                          (set_IPAddresses (mk_slice []) template)))
      as (H1 & H2 & H3 & H4 & H5 & H6).
    rewrite H1, H2, H3, H4, H5, H6. repeat split.
Qed.

Variables (req : SignRequest) (w : World) (pol : Signing) (prof : SigningProfile).
Hypothesis Hpolicy : policy (engine w) = Some pol.
Hypothesis Hprofile : resolved_profile pol (Profile req) = Some prof.

(** On an engine whose policy resolves the request's profile, the outcome
    of [Sign] as a function of what the collaborators return. *)
Lemma Sign_closed_form :
  Sign req w =
  match pem_Decode (mk_slice (list_byte_of_string (Request req))) with
  | None => Ret (nil_slice, Some (cferr_New CertificateError DecodeFailed)) w
  | Some block =>
    if String.eqb (BlockType block) "CERTIFICATE REQUEST" then
      match signer_ParseCertificateRequest (engine w) (BlockBytes block) with
      | inr e => Ret (nil_slice, Some e) w
      | inl parsed =>
        sign (length (heap w)) (Some prof)
             (if UseSerialSeq prof then SerialSeq req else "")
             (mkWorld (engine w) (heap w ++ [request_template req parsed])
                      (infolog w))
      end
    else
      Ret (nil_slice,
           Some (cferr_Wrap CertificateError BadRequest
                            (errors_New "not a certificate or csr"))) w
  end.
Proof using Hpolicy Hprofile.
  assert (Hprofile' :
            match Profiles pol !! Profile req with
            | None => Default pol
            | Some _ => Profiles pol !! Profile req
            end = Some prof).
  { unfold resolved_profile in Hprofile.
    destruct (Profiles pol !! Profile req); exact Hprofile. }
  destruct w as [e h l]; simpl in *.
  unfold Sign, bind at 1, get_engine. simpl.
  unfold bind at 1, deref at 1. rewrite Hpolicy. simpl. unfold ret at 1.
  unfold bind at 1, deref at 1. rewrite Hprofile'. unfold ret at 1.
  destruct (pem_Decode _) as [block|]; [|reflexivity].
  destruct (String.eqb (BlockType block) "CERTIFICATE REQUEST");
    simpl; [|reflexivity].
  destruct (signer_ParseCertificateRequest e (BlockBytes block))
    as [parsed|err]; [|reflexivity].
  unfold bind at 1, new. simpl.
  unfold bind at 1, assign at 1, bind at 1, load, deref, store. simpl.
  rewrite list_lookup_middle by reflexivity. simpl.
  rewrite list_lookup_middle by reflexivity.
  rewrite insert_app_r_alt by reflexivity. rewrite Nat.sub_diag. simpl.
  unfold bind at 1, assign at 1, bind at 1, load, deref, store. simpl.
  rewrite list_lookup_middle by reflexivity. simpl.
  rewrite list_lookup_middle by reflexivity.
  rewrite insert_app_r_alt by reflexivity. rewrite Nat.sub_diag. simpl.
  destruct (OverrideHosts_keeps_rest parsed (Hosts req)) as (Hsubject & _).
  unfold request_template. rewrite Hsubject. reflexivity.
Qed.

End SignRequestProperties.

Section SignRequestPanics.
Context {O : Opaque} {C : Collaborators}.

Variables (req : SignRequest) (w : World).

(** Without a policy, or when the profile's name is not in the policy's map
    and the policy has no default profile, [Sign] panics. *)
Lemma Sign_unresolved :
  match policy (engine w) with
  | None => True
  | Some pol => resolved_profile pol (Profile req) = None
  end ->
  Sign req w = Panic.
Proof.
  destruct w as [e h l]. simpl. unfold Sign, bind at 1, get_engine. simpl.
  unfold bind at 1, deref at 1.
  destruct (policy e) as [pol|]; [|reflexivity].
  unfold resolved_profile. intros Hnone. unfold ret at 1.
  unfold bind at 1, deref at 1.
  destruct (Profiles pol !! Profile req); [discriminate|].
  rewrite Hnone. reflexivity.
Qed.

Lemma Sign_returns (out : slice byte * option error) (w' : World) :
  Sign req w = Ret out w' ->
  exists pol prof,
    policy (engine w) = Some pol /\
    resolved_profile pol (Profile req) = Some prof.
Proof.
  intros Hrun.
  destruct (policy (engine w)) as [pol|] eqn:Hpol.
  - destruct (resolved_profile pol (Profile req)) as [prof|] eqn:Hprof.
    + eauto.
    + rewrite Sign_unresolved in Hrun; [discriminate|].
      rewrite Hpol. exact Hprof.
  - rewrite Sign_unresolved in Hrun; [discriminate|].
    rewrite Hpol. exact I.
Qed.

End SignRequestPanics.

Section SignRequestTheorems.
Context {O : Opaque} {C : Collaborators}.

Variables (req : SignRequest) (w : World).

(** X8. A request that decodes to a "CERTIFICATE REQUEST" block which the
    CSR parser accepts is signed by [sign], under the resolved profile, on a
    freshly allocated template: the parsed request with its hosts
    classified and its subject reconciled.  The serial sequence of the
    request is handed on only when the profile honours it. *)
Theorem Sign_signs_fresh_template
    (pol : Signing) (prof : SigningProfile) (block : Block)
    (parsed : Certificate) :
  policy (engine w) = Some pol ->
  resolved_profile pol (Profile req) = Some prof ->
  pem_Decode (mk_slice (list_byte_of_string (Request req))) = Some block ->
  BlockType block = "CERTIFICATE REQUEST" ->
  signer_ParseCertificateRequest (engine w) (BlockBytes block) = inl parsed ->
  Sign req w =
    sign (length (heap w)) (Some prof)
         (if UseSerialSeq prof then SerialSeq req else "")
         (mkWorld (engine w) (heap w ++ [request_template req parsed])
                  (infolog w)) /\
  heap w !! length (heap w) = None.
Proof.
  intros Hpol Hprof Hblock Htype Hparse.
  split; [|apply lookup_ge_None; lia].
  rewrite (@Sign_closed_form _ _ req w pol prof Hpol Hprof).
  rewrite Hblock, Htype, Hparse. reflexivity.
Qed.

(** X9. An error of the CSR parser is returned as it is, and nothing
    changes: no template is allocated, the engine and the log are as they
    were. *)
Theorem Sign_propagates_request_error
    (pol : Signing) (prof : SigningProfile) (block : Block) (e : error) :
  policy (engine w) = Some pol ->
  resolved_profile pol (Profile req) = Some prof ->
  pem_Decode (mk_slice (list_byte_of_string (Request req))) = Some block ->
  BlockType block = "CERTIFICATE REQUEST" ->
  signer_ParseCertificateRequest (engine w) (BlockBytes block) = inr e ->
  Sign req w = Ret (nil_slice, Some e) w.
Proof.
  intros Hpol Hprof Hblock Htype Hparse.
  rewrite (@Sign_closed_form _ _ req w pol prof Hpol Hprof).
  rewrite Hblock, Htype, Hparse. reflexivity.
Qed.


(** X11. When the resolved profile does not honour serial sequences, the
    request's serial sequence has no effect at all. *)
Theorem Sign_ignores_unhonoured_serial_sequence
    (pol : Signing) (prof : SigningProfile) (other : string) :
  policy (engine w) = Some pol ->
  resolved_profile pol (Profile req) = Some prof ->
  UseSerialSeq prof = false ->
  Sign (mkSignRequest (Hosts req) (Request req) (ReqSubject req)
                      (Profile req) other) w =
  Sign req w.
Proof.
  intros Hpol Hprof Hunused.
  rewrite (@Sign_closed_form _ _ req w pol prof Hpol Hprof).
  rewrite (@Sign_closed_form _ _
             (mkSignRequest (Hosts req) (Request req) (ReqSubject req)
                            (Profile req) other)
             w pol prof Hpol Hprof).
  simpl. rewrite Hunused. reflexivity.
Qed.

(** X12. [Sign] resolves the profile before it looks at the request: on an
    engine whose policy is nil, and on one whose policy has neither the
    requested profile nor a default profile, every request panics, well
    formed or not. *)
Theorem Sign_panics_without_profile :
  (policy (engine w) = None -> Sign req w = Panic) /\
  (forall pol : Signing,
      policy (engine w) = Some pol ->
      Profiles pol !! Profile req = None ->
      Default pol = None ->
      Sign req w = Panic).
Proof.
  split.
  - intros Hnil. apply Sign_unresolved. rewrite Hnil. exact I.
  - intros pol Hpol Hreq Hdefault. apply Sign_unresolved. rewrite Hpol.
    unfold resolved_profile. rewrite Hreq. exact Hdefault.
Qed.

(** X13. Whatever [Sign] returns, every certificate allocated before the
    call is the same after it, and the engine keeps its key, policy and
    signature algorithm; an engine that holds a CA certificate is the same
    engine, holding the same certificate, after the call. *)
Theorem Sign_preserves_certificates
    (out : slice byte * option error) (w' : World) :
  Sign req w = Ret out w' ->
  (forall p : ptr, p < length (heap w) -> heap w' !! p = heap w !! p) /\
  (priv (engine w') = priv (engine w) /\
   policy (engine w') = policy (engine w) /\
   sigAlgo (engine w') = sigAlgo (engine w)) /\
  (forall (issuer : ptr) (cacert : Certificate),
      ca (engine w) = Some issuer ->
      heap w !! issuer = Some cacert ->
      engine w' = engine w /\ caCertificate w' = Some cacert).
Proof.
  intros Hrun.
  destruct (@Sign_returns _ _ req w out w' Hrun) as (pol & prof & Hpol & Hprof).
  rewrite (@Sign_closed_form _ _ req w pol prof Hpol Hprof) in Hrun.
  assert (Hsame : w' = w ->
            (forall p : ptr, p < length (heap w) -> heap w' !! p = heap w !! p) /\
            (priv (engine w') = priv (engine w) /\
             policy (engine w') = policy (engine w) /\
             sigAlgo (engine w') = sigAlgo (engine w)) /\
            (forall (issuer : ptr) (cacert : Certificate),
                ca (engine w) = Some issuer ->
                heap w !! issuer = Some cacert ->
                engine w' = engine w /\ caCertificate w' = Some cacert)).
  { intros ->. split; [reflexivity|]. split; [repeat split|].
    intros issuer cacert Hca Hissuer. split; [reflexivity|].
    unfold caCertificate. rewrite Hca. exact Hissuer. }
  destruct (pem_Decode _) as [block|];
    [|inversion Hrun; subst; apply Hsame; reflexivity].
  destruct (String.eqb (BlockType block) "CERTIFICATE REQUEST");
    [|inversion Hrun; subst; apply Hsame; reflexivity].
  destruct (signer_ParseCertificateRequest _ _) as [parsed|e];
    [|inversion Hrun; subst; apply Hsame; reflexivity].
  clear Hsame. destruct out as [cert err].
  destruct (@sign_effects _ _ _ _ _ _ _ _ _ Hrun)
    as (Hfields & Hengine & _ & Hframe & _).
  simpl in Hfields, Hengine, Hframe.
  assert (Hold : forall p : ptr,
             p < length (heap w) -> heap w' !! p = heap w !! p).
  { intros p Hp. rewrite Hframe.
    - apply lookup_app_l. exact Hp.
    - lia.
    - rewrite length_app. simpl. lia. }
  split; [exact Hold|]. split; [exact Hfields|].
  intros issuer cacert Hca Hissuer.
  assert (Heq : engine w' = engine w) by (apply Hengine; rewrite Hca; eauto).
  split; [exact Heq|].
  unfold caCertificate. rewrite Heq, Hca, <- Hissuer.
  apply Hold. eapply lookup_lt_Some; eauto.
Qed.

End SignRequestTheorems.

(** ** Subject reconciler and host classifier *)

(** X14. Whitelisting is idempotent: a whitelisted identity passes the same
    whitelist unchanged. *)
Theorem whitelistRequest_idempotent (s : option Subject) (name : Name) :
  whitelistRequest s (whitelistRequest s name) = whitelistRequest s name.
Proof.
  destruct s as [[[[[] [] [] [] [] []]|] names]|]; reflexivity.
Qed.

(** X15. With a whitelist that keeps nothing and at least one override
    identity, the merged identity does not depend on the CSR. *)
Theorem PopulateSubjectFromCSR_deny_all
    (first : Name) (others : list Name) (req1 req2 : Name) :
  let s := mkSubject (Some (mkWhitelist false false false false false false))
                     (mk_slice (first :: others)) in
  PopulateSubjectFromCSR (Some s) req1 = PopulateSubjectFromCSR (Some s) req2.
Proof. reflexivity. Qed.

(** X16. The whitelist and the merge cover six fields only.  The street
    address, postal code and serial number of the merged identity are the
    override identity's when there is one, whatever the CSR holds; without
    an override identity they are the CSR's, whatever the whitelist says. *)
Theorem PopulateSubjectFromCSR_other_fields
    (wl : option Whitelist) (names : slice Name) (req : Name) :
  let s := mkSubject wl names in
  let merged := PopulateSubjectFromCSR (Some s) req in
  (len names <> 0 ->
   StreetAddress merged = StreetAddress (Subject_Name s) /\
   PostalCode merged = PostalCode (Subject_Name s) /\
   NameSerialNumber merged = NameSerialNumber (Subject_Name s)) /\
  (len names = 0 ->
   StreetAddress merged = StreetAddress req /\
   PostalCode merged = PostalCode req /\
   NameSerialNumber merged = NameSerialNumber req).
Proof.
  intros s merged. subst merged. unfold PopulateSubjectFromCSR. simpl.
  destruct (Nat.eqb_spec (len names) 0) as [Hzero|Hpos]; split; intros Hlen;
    try contradiction.
  - destruct wl as [w|]; repeat split.
  - destruct (CommonName (Subject_Name s) =? "")%string; repeat split.
Qed.

Section HostClassifierMore.
Context {O : Opaque} {C : Collaborators}.

Lemma hosts_split_length (hosts : list string) :
  length (ip_hosts hosts) + length (dns_hosts hosts) = length hosts.
Proof.
  induction hosts as [|h hosts IH]; [reflexivity|].
  rewrite ip_hosts_cons, dns_hosts_cons.
  destruct (net_ParseIP h); simpl; lia.
Qed.

(** X17. A non-nil host list is partitioned: every host lands in exactly
    one of the two SAN lists, so their lengths add up to the number of
    hosts; the DNS names are the hosts that do not parse as IP literals and
    the addresses are the parses of those that do. *)
Theorem OverrideHosts_partitions_hosts
    (template : Certificate) (hosts : list string) :
  let t' := OverrideHosts template (mk_slice hosts) in
  len (IPAddresses t') + len (DNSNames t') = length hosts /\
  (forall h : string,
      h ∈ elems (DNSNames t') <-> h ∈ hosts /\ net_ParseIP h = None) /\
  (forall ip : IP,
      ip ∈ elems (IPAddresses t') <->
      exists h : string, h ∈ hosts /\ net_ParseIP h = Some ip).
Proof.
  intros t'. subst t'. unfold OverrideHosts. simpl.
  rewrite OverrideHosts_loop with (ips := []) (dns := []) by reflexivity.
  simpl. unfold len. simpl. split; [apply hosts_split_length|]. split.
  - intros h. unfold dns_hosts. rewrite list_elem_of_filter. tauto.
  - intros ip. unfold ip_hosts. apply list_elem_of_omap.
Qed.

(** X18. Of two calls of the host classifier the last one with a non-nil
    list decides: what an earlier call put into the SAN lists is gone.  In
    particular classifying the same hosts twice is classifying them once. *)
Theorem OverrideHosts_last_call_wins
    (template : Certificate) (earlier : slice string) (hosts : list string) :
  OverrideHosts (OverrideHosts template earlier) (mk_slice hosts) =
    OverrideHosts template (mk_slice hosts) /\
  OverrideHosts (OverrideHosts template earlier) earlier =
    OverrideHosts template earlier.
Proof.
  assert (Hlast : forall (hs : list string) (early : slice string),
             OverrideHosts (OverrideHosts template early) (mk_slice hs) =
             OverrideHosts template (mk_slice hs)).
  { intros hs early.
    destruct (OverrideHosts_keeps_rest template early)
      as (H1 & H2 & H3 & H4 & H5 & H6).
    unfold OverrideHosts at 1 3. simpl.
    rewrite !OverrideHosts_loop with (ips := []) (dns := []) by reflexivity.
    destruct (OverrideHosts template early), template; simpl in *.
    subst. reflexivity. }
  split; [apply Hlast|].
  destruct earlier as [|hs]; [reflexivity|apply Hlast].
Qed.

End HostClassifierMore.

(** ** Construction and the accessors, continued *)

Section Construction.
Context {O : Opaque} {C : Collaborators}.

(** X19. [NewSigner] returns an engine or an error, never both and never
    neither.  An engine it returns has the key, certificate and algorithm
    it was given and a policy that is not nil and is valid: the given one,
    or the default policy with an empty map of profiles. *)
Theorem NewSigner_result
    (key : PrivateKey) (cert : option ptr) (algo : SignatureAlgorithm)
    (given : option Signing) :
  match NewSigner key cert algo given with
  | (Some s, None) =>
    ca s = cert /\ priv s = key /\ sigAlgo s = algo /\
    exists p : Signing,
      policy s = Some p /\ Signing_Valid p = true /\
      match given with
      | Some g => p = g
      | None => p = mkSigning ∅ config_DefaultConfig
      end
  | (None, Some e) => e = cferr_New PolicyError InvalidPolicy
  | _ => False
  end.
Proof.
  unfold NewSigner.
  destruct given as [g|]; simpl;
    match goal with
    | |- context [Signing_Valid ?p] => destruct (Signing_Valid p) eqn:Hvalid
    end; simpl; repeat split; eauto.
Qed.

End Construction.

Section ConstructionFromFile.
Context {O : Opaque} {C : Collaborators} {L : Loaders}.

Variables (caFile caKeyFile : string) (given : option Signing) (w : World).

(** X20. The failures of [NewSignerFromFile], in the order the code meets
    them: an unreadable certificate file gives the read error as it is; an
    unreadable key file gives CertificateError/ReadFailed, also when the
    certificate file holds no certificate, because both files are read
    before either is parsed; then the certificate parser's error, then the
    key parser's, both as they are.  No engine is returned. *)
Theorem NewSignerFromFile_failures :
  (forall e,
      ioutil_ReadFile caFile = inr e ->
      NewSignerFromFile caFile caKeyFile given w = Ret (None, Some e) w) /\
  (forall data e,
      ioutil_ReadFile caFile = inl data ->
      ioutil_ReadFile caKeyFile = inr e ->
      NewSignerFromFile caFile caKeyFile given w =
        Ret (None, Some (cferr_Wrap CertificateError ReadFailed e)) w) /\
  (forall data keydata parsed e,
      ioutil_ReadFile caFile = inl data ->
      ioutil_ReadFile caKeyFile = inl keydata ->
      helpers_ParseCertificatePEM data = (parsed, Some e) ->
      exists w',
        NewSignerFromFile caFile caKeyFile given w = Ret (None, Some e) w' /\
        engine w' = engine w) /\
  (forall data keydata parsed e,
      ioutil_ReadFile caFile = inl data ->
      ioutil_ReadFile caKeyFile = inl keydata ->
      helpers_ParseCertificatePEM data = (parsed, None) ->
      helpers_ParsePrivateKeyPEM keydata = inr e ->
      exists w',
        NewSignerFromFile caFile caKeyFile given w = Ret (None, Some e) w' /\
        engine w' = engine w).
Proof.
  unfold NewSignerFromFile. repeat split.
  - intros e Hca. rewrite Hca. reflexivity.
  - intros data e Hca Hkey. rewrite Hca, Hkey. reflexivity.
  - intros data keydata parsed e Hca Hkey Hparse.
    rewrite Hca, Hkey, Hparse.
    destruct parsed as [c|]; eexists; split; reflexivity.
  - intros data keydata parsed e Hca Hkey Hparse Hpriv.
    rewrite Hca, Hkey, Hparse.
    destruct parsed as [c|]; eexists; unfold_go; simpl; rewrite Hpriv;
      split; reflexivity.
Qed.

(** X21. When [NewSignerFromFile] returns an engine it returns no error,
    both files were read and parsed without error, the engine's key is the
    parsed key with its default signature algorithm, its policy is valid,
    and its CA certificate is the one parsed from the certificate file; the
    certificates allocated before are untouched. *)
Theorem NewSignerFromFile_engine
    (s : Signer) (err : option error) (w' : World) :
  NewSignerFromFile caFile caKeyFile given w = Ret (Some s, err) w' ->
  err = None /\
  exists data keydata parsed key,
    ioutil_ReadFile caFile = inl data /\
    ioutil_ReadFile caKeyFile = inl keydata /\
    helpers_ParseCertificatePEM data = (parsed, None) /\
    helpers_ParsePrivateKeyPEM keydata = inl key /\
    priv s = key /\
    sigAlgo s = signer_DefaultSigAlgo key /\
    (exists p, policy s = Some p /\ Signing_Valid p = true) /\
    caCertificate (mkWorld s (heap w') (infolog w')) = parsed /\
    engine w' = engine w /\
    forall p : ptr, p < length (heap w) -> heap w' !! p = heap w !! p.
Proof.
  destruct w as [e0 h l]. simpl. unfold NewSignerFromFile.
  destruct (ioutil_ReadFile caFile) as [data|e] eqn:Hca; [|discriminate].
  destruct (ioutil_ReadFile caKeyFile) as [keydata|e] eqn:Hkey;
    [|discriminate].
  destruct (helpers_ParseCertificatePEM data) as [parsed [e|]] eqn:Hparse;
    [destruct parsed; discriminate|].
  destruct (helpers_ParsePrivateKeyPEM keydata) as [key|e] eqn:Hpriv;
    [|destruct parsed; discriminate].
  intros Hrun.
  assert (Hnew : NewSigner key
                   (match parsed with
                    | Some _ => Some (length h)
                    | None => None
                    end)
                   (signer_DefaultSigAlgo key) given = (Some s, err) /\
                 w' = mkWorld e0
                        (match parsed with
                         | Some c => h ++ [c]
                         | None => h
                         end) l).
  { destruct parsed as [c|]; unfold_go; simpl in Hrun; inversion Hrun;
      split; reflexivity. }
  clear Hrun. destruct Hnew as [Hnew ->].
  unfold NewSigner in Hnew.
  destruct (Signing_Valid _) eqn:Hvalid; simpl in Hnew; [|discriminate].
  inversion Hnew; subst; clear Hnew. split; [reflexivity|].
  exists data, keydata, parsed, key. simpl.
  repeat split; eauto.
  - unfold caCertificate. simpl. destruct parsed as [c|]; [|reflexivity].
    rewrite lookup_app_r by reflexivity. rewrite Nat.sub_diag. reflexivity.
  - intros p Hp. destruct parsed as [c|]; [|reflexivity].
    apply lookup_app_l. exact Hp.
Qed.

End ConstructionFromFile.

(** ** The further properties on the sample runs *)

Lemma sign_keeps_key_policy_algorithm_witness :
  priv (engine DemoRuns.root_after) = 5 /\
  policy (engine DemoRuns.root_after) = Some Demo.policy0 /\
  sigAlgo (engine DemoRuns.root_after) = 0.
Proof.
  exact (@sign_keeps_key_policy_algorithm Demo.opaque Demo.collab
           0 (Some Demo.profile0) "" DemoRuns.root_before DemoRuns.root_after
           (fst DemoRuns.root_out) (snd DemoRuns.root_out) eq_refl).
Defined.

(** The bootstrap run allocates the parsed root; the template is cell 0. *)
Lemma sign_touches_only_template_witness :
  1 <= length (heap DemoRuns.root_after) /\
  forall p : ptr,
    p <> 0 -> p < 1 ->
    heap DemoRuns.root_after !! p = heap DemoRuns.root_before !! p.
Proof.
  exact (@sign_touches_only_template Demo.opaque Demo.collab
           0 (Some Demo.profile0) "" DemoRuns.root_before DemoRuns.root_after
           (fst DemoRuns.root_out) (snd DemoRuns.root_out) eq_refl).
Defined.

Lemma sign_active_engine_unchanged_witness :
  engine DemoRuns.leaf_after = Demo.engine_active /\
  caCertificate DemoRuns.leaf_after = Some Demo.caCert.
Proof.
  refine (@sign_active_engine_unchanged Demo.opaque Demo.collab
            1 (Some Demo.profile0) "" DemoRuns.leaf_before DemoRuns.leaf_after
            (fst DemoRuns.leaf_out) (snd DemoRuns.leaf_out)
            0 Demo.caCert eq_refl eq_refl eq_refl _).
  discriminate.
Defined.

Lemma sign_result_shape_witness :
  (exists der,
      fst DemoRuns.leaf_out =
      pem_EncodeToMemory (Collaborators:=Demo.collab)
        (mkBlock "CERTIFICATE" der)) /\
  exists signed : Certificate (O:=Demo.opaque),
    heap DemoRuns.leaf_after !! 1 = Some signed /\
    infolog DemoRuns.leaf_after = [SerialNumber signed].
Proof.
  exact (proj2 (@sign_result_shape Demo.opaque Demo.collab
                  1 (Some Demo.profile0) "" DemoRuns.leaf_before
                  DemoRuns.leaf_after
                  (fst DemoRuns.leaf_out) (snd DemoRuns.leaf_out) eq_refl)
               eq_refl).
Defined.

(** The sample filler fails when there is no profile at all. *)
Lemma sign_filler_error_witness :
  sign (C:=Demo.collab) 0 None "" Demo.world_no_default =
    Ret (nil_slice, Some (foreign (O:=Demo.opaque) "no profile"))
        Demo.world_no_default.
Proof.
  exact (@sign_filler_error Demo.opaque Demo.collab
           0 None "" Demo.world_no_default Demo.policy_no_default
           Demo.leafRequest Demo.leafRequest eq_refl eq_refl
           (foreign (O:=Demo.opaque) "no profile") eq_refl).
Defined.

Lemma sign_leaf_issuance_witness :
  exists (out : slice byte * option error) (w' : World (O:=Demo.opaque)),
    sign (C:=Demo.collab) 1 (Some Demo.profile0) "" DemoRuns.leaf_before =
      Ret out w' /\
    heap w' !! 1 =
      Some (mkCertificate (O:=Demo.opaque)
              (set_CommonName "www.example.com" zeroName)
              (mk_slice ["www.example.com"]) nil_slice (Some 1%Z)
              false 0%Z 7 tt) /\
    engine w' = Demo.engine_active.
Proof.
  destruct (@sign_leaf_issuance Demo.opaque Demo.collab
              1 (Some Demo.profile0) "" DemoRuns.leaf_before Demo.policy0
              Demo.leafRequest
              (fst (Demo.FillTemplate Demo.leafRequest (Some Demo.profile0)
                      (Some Demo.profile0) ""))
              eq_refl eq_refl 0 Demo.caCert eq_refl eq_refl eq_refl eq_refl)
    as (out & w' & Hrun & Htemplate & Hengine & _).
  exists out, w'.
  split; [exact Hrun|]. split; [exact Htemplate|exact Hengine].
Defined.

Lemma sign_reparse_error_witness :
  exists w' : World (O:=Demo.opaque),
    sign (C:=DemoRuns.collab_strict_parser) 0 (Some Demo.profile0) ""
         DemoRuns.root_before =
      Ret (nil_slice,
           Some (cferr_Wrap CertificateError ParseFailed
                   (foreign (O:=Demo.opaque) "malformed"))) w' /\
    caCertificate w' = None /\
    infolog w' = [].
Proof.
  exact (@sign_reparse_error Demo.opaque DemoRuns.collab_strict_parser
           0 (Some Demo.profile0) "" DemoRuns.root_before Demo.policy0
           Demo.caRequest
           (fst (Demo.FillTemplate Demo.caRequest (Some Demo.profile0)
                   (Some Demo.profile0) ""))
           eq_refl eq_refl (mk_slice [x30; x01]) None
           (foreign (O:=Demo.opaque) "malformed")
           eq_refl eq_refl eq_refl eq_refl eq_refl).
Defined.

Lemma Sign_signs_fresh_template_witness :
  Sign (C:=Demo.collab) DemoRuns.request DemoRuns.leaf_before =
    sign (C:=Demo.collab) 2 (Some Demo.profile0) ""
         (mkWorld Demo.engine_active
            [Demo.caCert; Demo.leafRequest;
             mkCertificate (O:=Demo.opaque) (set_CommonName "www" zeroName)
               (mk_slice ["www.example.com"]) (mk_slice [[10; 0; 0; 1]%N])
               None false 0%Z 7 tt] []) /\
  heap DemoRuns.leaf_before !! 2 = None.
Proof.
  exact (@Sign_signs_fresh_template Demo.opaque Demo.collab
           DemoRuns.request DemoRuns.leaf_before Demo.policy0 Demo.profile0
           (mkBlock "CERTIFICATE REQUEST"
                    (mk_slice (list_byte_of_string "www")))
           (mkCertificate (O:=Demo.opaque) (set_CommonName "www" zeroName)
              (mk_slice ["csr.example.com"]) nil_slice None false 0%Z 7 tt)
           eq_refl eq_refl eq_refl eq_refl eq_refl).
Defined.

(** The sample CSR parser refuses an empty request. *)
Lemma Sign_propagates_request_error_witness :
  Sign (C:=Demo.collab) DemoRuns.request_without_csr DemoRuns.leaf_before =
    Ret (nil_slice, Some (cferr_New CertificateError ParseFailed))
        DemoRuns.leaf_before.
Proof.
  exact (@Sign_propagates_request_error Demo.opaque Demo.collab
           DemoRuns.request_without_csr DemoRuns.leaf_before
           Demo.policy0 Demo.profile0
           (mkBlock "CERTIFICATE REQUEST" (mk_slice []))
           (cferr_New CertificateError ParseFailed)
           eq_refl eq_refl eq_refl eq_refl eq_refl).
Defined.


Lemma Sign_ignores_unhonoured_serial_sequence_witness :
  Sign (C:=Demo.collab)
       (mkSignRequest (mk_slice ["10.0.0.1"; "www.example.com"])
                      "-----BEGIN CERTIFICATE REQUEST-----www" None "web" "8")
       DemoRuns.leaf_before =
  Sign (C:=Demo.collab) DemoRuns.request DemoRuns.leaf_before.
Proof.
  exact (@Sign_ignores_unhonoured_serial_sequence Demo.opaque Demo.collab
           DemoRuns.request DemoRuns.leaf_before Demo.policy0 Demo.profile0
           "8" eq_refl eq_refl eq_refl).
Defined.

Lemma Sign_preserves_certificates_witness :
  (forall p : ptr,
      p < 2 -> heap DemoRuns.Sign_after !! p = heap DemoRuns.leaf_before !! p) /\
  engine DemoRuns.Sign_after = Demo.engine_active /\
  caCertificate DemoRuns.Sign_after = Some Demo.caCert.
Proof.
  destruct (@Sign_preserves_certificates Demo.opaque Demo.collab
              DemoRuns.request DemoRuns.leaf_before DemoRuns.Sign_out
              DemoRuns.Sign_after eq_refl)
    as (Hheap & _ & Hca).
  split; [exact Hheap|].
  exact (Hca 0 Demo.caCert eq_refl eq_refl).
Defined.

Lemma NewSignerFromFile_engine_witness :
  priv DemoRuns.loaded_engine = 5 /\
  sigAlgo DemoRuns.loaded_engine = 6 /\
  caCertificate (mkWorld DemoRuns.loaded_engine
                         (heap DemoRuns.loaded_after)
                         (infolog DemoRuns.loaded_after)) =
    Some Demo.caCert.
Proof.
  destruct (@NewSignerFromFile_engine Demo.opaque Demo.collab
              DemoFiles.loaders "ca.pem" "ca-key.pem" None
              DemoFiles.world_empty DemoRuns.loaded_engine None
              DemoRuns.loaded_after eq_refl)
    as (_ & data & keydata & parsed & key & Hca & Hkey & Hparse & Hpriv
        & Hk & Halgo & _ & Hcert & _).
  assert (Hdata : data = mk_slice (list_byte_of_string "CERT"))
    by (inversion Hca; reflexivity).
  assert (Hkeydata : keydata = mk_slice (list_byte_of_string "KEY"))
    by (inversion Hkey; reflexivity).
  subst data keydata.
  assert (Hkey5 : key = 5) by (inversion Hpriv; reflexivity).
  assert (Hparsed : parsed = Some Demo.caCert)
    by (inversion Hparse; reflexivity).
  rewrite Hkey5 in Hk, Halgo. rewrite Hparsed in Hcert.
  split; [exact Hk|]. split; [exact Halgo|]. exact Hcert.
Defined.
